(** * openclaw-maasv: the memory plugin and its HTTP client

    A shallow embedding of the TypeScript plugin (src/index.ts, src/client.ts,
    src/tools/*.ts, src/types.ts) and of the behaviour the specification
    attributes to the remote cognition service.

    - JavaScript strings are [string]s, one character per code unit; no
      function below looks inside a code unit except to compare it with an
      ASCII character.
    - JavaScript numbers are rationals [Q] (finite values; NaN and the
      infinities are not represented).
    - An [async] function is a finite tree of effects, [Prog]: it returns,
      throws, logs, or awaits one [fetch] and continues on its outcome. *)

From Stdlib Require Import String Ascii List Bool ZArith QArith Qround Lia.
From Stdlib Require Import DecimalString.
Import ListNotations.

Set Warnings "-register-all".
Open Scope list_scope.
Open Scope string_scope.

(* ================================================================== *)
(** ** JavaScript values used by the plugin *)

Definition number := Q.

Definition LF : string := String (ascii_of_nat 10) EmptyString.

(** A JSON value as handed to [JSON.stringify]; a property whose value is
    [undefined] is left out of the object, as [JSON.stringify] drops it. *)
Inductive json : Type :=
| JNull
| JBool (b : bool)
| JNum (n : number)
| JStr (s : string)
| JArr (items : list json)
| JObj (fields : list (string * json)).

Definition prop {A} (key : string) (enc : A -> json) (v : option A)
  : list (string * json) :=
  match v with
  | Some a => [(key, enc a)]
  | None => []
  end.

(** Truthiness of an optional string: [undefined] and [""] are falsy. *)
Definition truthy (s : option string) : bool :=
  match s with
  | Some v => negb (v =? "")
  | None => false
  end.

(** [x === undefined] *)
Definition is_undefined {A} (x : option A) : bool :=
  match x with
  | Some _ => false
  | None => true
  end.

(** [a ?? b]; also used to read an optional value that a preceding test has
    shown to be present. *)
Definition nullish {A} (a : option A) (b : A) : A :=
  match a with
  | Some v => v
  | None => b
  end.

(** [ToIntegerOrInfinity] on a finite number: truncation towards zero. *)
Definition ToIntegerOrInfinity (q : number) : Z :=
  Z.quot (Qnum q) (Zpos (Qden q)).

(** [String.prototype.slice(start, end)]. *)
Definition slice (s : string) (start end_ : number) : string :=
  let len := Z.of_nat (String.length s) in
  let intStart := ToIntegerOrInfinity start in
  let from :=
    if (intStart <? 0)%Z then Z.max (len + intStart) 0 else Z.min intStart len in
  let intEnd := ToIntegerOrInfinity end_ in
  let to :=
    if (intEnd <? 0)%Z then Z.max (len + intEnd) 0 else Z.min intEnd len in
  if (from >=? to)%Z then ""
  else substring (Z.to_nat from) (Z.to_nat (to - from)) s.

(** [s.replace(/\/+$/, "")]: the longest run of slashes at the end of the
    string is removed. *)
Fixpoint strip_trailing_slashes (s : string) : string :=
  match s with
  | EmptyString => EmptyString
  | String c rest =>
      match strip_trailing_slashes rest with
      | EmptyString => if Ascii.eqb c "/" then EmptyString else String c EmptyString
      | kept => String c kept
      end
  end.

(** Decimal rendering of an integer-valued number (an HTTP status, an index). *)
Definition string_of_Z (z : Z) : string :=
  NilZero.string_of_int (Z.to_int z).

(* ================================================================== *)
(** ** Effects: fetch, logging, exceptions *)

Inductive LogLevel := LogInfo | LogWarn | LogError.

(** The [RequestInit] built by [MaasvClient.request]; the abort signal of the
    30 s timer is not a field: when the timer fires the fetch rejects. *)
Record RequestInit := {
  init_method : string;
  init_headers : list (string * string);
  init_body : option json
}.

(** What the plugin reads from a [Response] whose JSON body has type [T]:
    [text_result = None] when [response.text()] rejects, [json_result = inl m] when
    [response.json()] rejects with message [m]. *)
Record Response (T : Type) := {
  ok : bool;
  status : Z;
  text_result : option string;
  json_result : string + T
}.
Arguments ok {T} _.
Arguments status {T} _.
Arguments text_result {T} _.
Arguments json_result {T} _.

Inductive FetchOutcome (T : Type) :=
| Rejected (message : string)
| Resolved (response : Response T).
Arguments Rejected {T} _.
Arguments Resolved {T} _.

Inductive Prog (A : Type) : Type :=
| Ret (a : A)
| Throw (message : string)
| Fetch (T : Type) (url : string) (init : RequestInit)
        (k : FetchOutcome T -> Prog A)
| Log (level : LogLevel) (line : string) (k : Prog A).
Arguments Ret {A} _.
Arguments Throw {A} _.
Arguments Fetch {A} _ _ _ _.
Arguments Log {A} _ _ _.

Fixpoint bind {A B} (p : Prog A) (f : A -> Prog B) : Prog B :=
  match p with
  | Ret a => f a
  | Throw m => Throw m
  | Fetch T url init k => Fetch T url init (fun o => bind (k o) f)
  | Log l m k => Log l m (bind k f)
  end.

(** [try { p } catch (err) { handler err.message }] *)
Fixpoint try_catch {A} (p : Prog A) (handler : string -> Prog A) : Prog A :=
  match p with
  | Ret a => Ret a
  | Throw m => handler m
  | Fetch T url init k => Fetch T url init (fun o => try_catch (k o) handler)
  | Log l m k => Log l m (try_catch k handler)
  end.

Declare Scope prog_scope.
Delimit Scope prog_scope with prog.
Notation "x <- p ;; q" := (bind p (fun x => q))
  (at level 100, p at next level, right associativity) : prog_scope.
Notation "'await' p ;; q" := (bind p (fun _ => q))
  (at level 100, p at next level, right associativity) : prog_scope.
Open Scope prog_scope.

(** The program performs no fetch. *)
Fixpoint no_fetch {A} (p : Prog A) : Prop :=
  match p with
  | Ret _ | Throw _ => True
  | Fetch _ _ _ _ => False
  | Log _ _ k => no_fetch k
  end.

(** The program never ends in an exception, whatever the fetches yield. *)
Fixpoint no_throw {A} (p : Prog A) : Prop :=
  match p with
  | Ret _ => True
  | Throw _ => False
  | Fetch _ _ _ k => forall o, no_throw (k o)
  | Log _ _ k => no_throw k
  end.

(** Some behaviour of the server makes the program return [a]. *)
Fixpoint may_return {A} (p : Prog A) (a : A) : Prop :=
  match p with
  | Ret b => b = a
  | Throw _ => False
  | Fetch _ _ _ k => exists o, may_return (k o) a
  | Log _ _ k => may_return k a
  end.

(** Some behaviour of the server makes the program throw [m]. *)
Fixpoint may_throw {A} (p : Prog A) (m : string) : Prop :=
  match p with
  | Ret _ => False
  | Throw e => e = m
  | Fetch _ _ _ k => exists o, may_throw (k o) m
  | Log _ _ k => may_throw k m
  end.

(** The first request the program sends, if it sends one. *)
Fixpoint first_request {A} (p : Prog A) : option (string * RequestInit) :=
  match p with
  | Fetch _ url init _ => Some (url, init)
  | Log _ _ k => first_request k
  | Ret _ | Throw _ => None
  end.

(** [headers[name]] *)
Fixpoint lookup_header (name : string) (headers : list (string * string))
  : option string :=
  match headers with
  | [] => None
  | (key, value) :: rest =>
      if key =? name then Some value else lookup_header name rest
  end.

(* ================================================================== *)
(** ** src/types.ts *)

Record PluginConfig := {
  serverUrl : string;
  apiKey : option string;
  autoRecall : bool;
  autoCapture : bool;
  maxRecallResults : number;
  maxRecallTokens : number;
  enableGraph : bool;
  enableWisdom : bool
}.

(** [api.pluginConfig]: an object holding any subset of the keys of
    [PluginConfig]. *)
Record RawConfig := {
  raw_serverUrl : option string;
  raw_apiKey : option string;
  raw_autoRecall : option bool;
  raw_autoCapture : option bool;
  raw_maxRecallResults : option number;
  raw_maxRecallTokens : option number;
  raw_enableGraph : option bool;
  raw_enableWisdom : option bool
}.

Definition metadata_t := list (string * json).

Record Memory := {
  mem_id : string;
  mem_content : string;
  mem_category : string;
  mem_subject : option string;
  mem_source : string;
  mem_confidence : number;
  mem_importance : option number;
  mem_access_count : number;
  mem_created_at : string;
  mem_updated_at : string;
  mem_metadata : option metadata_t
}.

Record ScoredMemory := {
  memory : Memory;
  distance : option number;
  _imp_score : option number
}.

Record StoreRequest := {
  sr_content : string;
  sr_category : string;
  sr_subject : option string;
  sr_source : option string;
  sr_confidence : option number;
  sr_metadata : option metadata_t
}.

Record SearchRequest := {
  sq_query : string;
  sq_limit : option number;
  sq_category : option string;
  sq_subject : option string
}.

Record ContextRequest := {
  cr_query : option string;
  cr_core_limit : option number;
  cr_relevant_limit : option number;
  cr_use_semantic : option bool
}.

Record Entity := {
  ent_id : string;
  ent_name : string;
  ent_entity_type : string;
  ent_canonical_name : string;
  ent_metadata : option metadata_t;
  ent_access_count : number
}.

Record Relationship := {
  rel_id : string;
  rel_subject_id : string;
  rel_predicate : string;
  rel_object_id : option string;
  rel_object_value : option string;
  rel_valid_from : string;
  rel_valid_to : option string;
  rel_confidence : number;
  rel_subject_name : option string;
  rel_object_name : option string
}.

(** [relationships] is a [Record<string, Relationship[]>]; the list keeps the
    order in which [Object.entries] enumerates it. *)
Record EntityProfile := {
  entity : Entity;
  relationships : list (string * list Relationship);
  related_entities : list Entity
}.

Record WisdomEntry := {
  wis_id : string;
  wis_action_type : string;
  wis_reasoning : string;
  wis_outcome : string;
  wis_outcome_details : option string;
  wis_feedback_score : option number;
  wis_feedback_notes : option string;
  wis_timestamp : string;
  wis_tags : option (list string)
}.

Record Extraction := {
  ext_status : string;
  ext_entities : option (list (string * string));
  ext_relationships : option (list (string * string * string))
}.

Record ExtractionResult := {
  extraction : Extraction;
  storage : metadata_t
}.

Inductive HealthStatus := healthy | unhealthy.

Record HealthResponse := { health_status : HealthStatus }.

Record StatsResponse := {
  stats_memories_total_active : number;
  stats_memories_total_superseded : number;
  stats_memories_by_category : list (string * number);
  stats_entities_total : number;
  stats_entities_by_type : list (string * number);
  stats_relationships_total_active : number;
  stats_retrieval_latency_ms : option number;
  stats_wisdom : option metadata_t
}.

(** Shapes of the replies that [client.ts] declares inline. *)
Record MemoryIdReply := { memory_id : string }.
Record SearchReply := { results : list ScoredMemory; count : number }.
Record ContextReply := { context : string }.
Record DeleteReply := { deleted : bool; deleted_memory_id : string }.
Record EntitiesReply := { ent_results : list Entity; ent_count : number }.
Record RelationshipIdReply := { relationship_id : string }.
Record WisdomIdReply := { wisdom_id : string }.
Record UpdatedReply := { updated : bool }.
Record WisdomReply := { wis_results : list WisdomEntry; wis_count : number }.

Record RelationshipRequest := {
  rr_subject_id : string;
  rr_predicate : string;
  rr_object_id : option string;
  rr_object_value : option string;
  rr_confidence : option number;
  rr_source : option string
}.

Record ReasoningRequest := {
  lr_action_type : string;
  lr_reasoning : string;
  lr_action_data : option metadata_t;
  lr_trigger : option string;
  lr_context : option string;
  lr_tags : option (list string)
}.

(** The objects above as [JSON.stringify] sees them: the keys come in the
    order in which the object literal of the caller lists them (for a store
    request, memory-store.ts: content, category, subject, confidence,
    source). *)
Definition json_of_StoreRequest (r : StoreRequest) : json :=
  JObj ([("content", JStr (sr_content r)); ("category", JStr (sr_category r))]
        ++ prop "subject" JStr (sr_subject r)
        ++ prop "confidence" JNum (sr_confidence r)
        ++ prop "source" JStr (sr_source r)
        ++ prop "metadata" JObj (sr_metadata r))%list.

Definition json_of_SearchRequest (r : SearchRequest) : json :=
  JObj ([("query", JStr (sq_query r))]
        ++ prop "limit" JNum (sq_limit r)
        ++ prop "category" JStr (sq_category r)
        ++ prop "subject" JStr (sq_subject r))%list.

Definition json_of_ContextRequest (r : ContextRequest) : json :=
  JObj (prop "query" JStr (cr_query r)
        ++ prop "core_limit" JNum (cr_core_limit r)
        ++ prop "relevant_limit" JNum (cr_relevant_limit r)
        ++ prop "use_semantic" JBool (cr_use_semantic r))%list.

Definition json_of_RelationshipRequest (r : RelationshipRequest) : json :=
  JObj ([("subject_id", JStr (rr_subject_id r));
         ("predicate", JStr (rr_predicate r))]
        ++ prop "object_id" JStr (rr_object_id r)
        ++ prop "object_value" JStr (rr_object_value r)
        ++ prop "confidence" JNum (rr_confidence r)
        ++ prop "source" JStr (rr_source r))%list.

Definition json_of_ReasoningRequest (r : ReasoningRequest) : json :=
  JObj ([("action_type", JStr (lr_action_type r));
         ("reasoning", JStr (lr_reasoning r))]
        ++ prop "action_data" JObj (lr_action_data r)
        ++ prop "trigger" JStr (lr_trigger r)
        ++ prop "context" JStr (lr_context r)
        ++ prop "tags" (fun l => JArr (map JStr l)) (lr_tags r))%list.

(* ================================================================== *)
(** ** src/client.ts *)

Record MaasvClient := {
  baseUrl : string;
  headers : list (string * string)
}.

Definition new_MaasvClient (config : PluginConfig) : MaasvClient :=
  {| baseUrl := strip_trailing_slashes (serverUrl config);
     headers :=
       ("Content-Type", "application/json")
       :: (if truthy (apiKey config)
           then [("X-Maasv-Key", nullish (apiKey config) "")]
           else []) |}.

(** The part of [request] that runs once [await fetch(url, init)] has
    settled. *)
Definition handle_response {T} (method path : string) (outcome : FetchOutcome T)
  : Prog T :=
  match outcome with
  | Rejected m => Throw m
  | Resolved response =>
      if negb (ok response) then
        let text := nullish (text_result response) "" in
        Throw ("maasv-server " ++ method ++ " " ++ path ++ " failed: "
               ++ string_of_Z (status response) ++ " " ++ text)
      else
        match json_result response with
        | inl m => Throw m
        | inr value => Ret value
        end
  end.

Definition request {T} (this : MaasvClient) (method path : string)
    (body : option json) : Prog T :=
  let url := baseUrl this ++ path in
  let init := {| init_method := method;
                 init_headers := headers this;
                 init_body := body |} in
  Fetch T url init (handle_response method path).

Definition storeMemory (this : MaasvClient) (req : StoreRequest)
  : Prog MemoryIdReply :=
  request this "POST" "/v1/memory/store" (Some (json_of_StoreRequest req)).

Definition searchMemories (this : MaasvClient) (req : SearchRequest)
  : Prog SearchReply :=
  request this "POST" "/v1/memory/search" (Some (json_of_SearchRequest req)).

Definition getContext (this : MaasvClient) (req : ContextRequest)
  : Prog ContextReply :=
  request this "POST" "/v1/memory/context" (Some (json_of_ContextRequest req)).

Definition getMemory (this : MaasvClient) (memoryId : string) : Prog Memory :=
  request this "GET" ("/v1/memory/" ++ memoryId) None.

Definition deleteMemory (this : MaasvClient) (memoryId : string)
  : Prog DeleteReply :=
  request this "DELETE" ("/v1/memory/" ++ memoryId) None.

Definition supersedeMemory (this : MaasvClient) (oldId newContent : string)
  : Prog MemoryIdReply :=
  request this "POST" "/v1/memory/supersede"
    (Some (JObj [("old_id", JStr oldId); ("new_content", JStr newContent)])).

Definition extract (this : MaasvClient) (text : string) (topic : option string)
  : Prog ExtractionResult :=
  request this "POST" "/v1/extract"
    (Some (JObj [("text", JStr text); ("topic", JStr (nullish topic ""))])).

Definition findOrCreateEntity (this : MaasvClient) (name entityType : string)
    (metadata : option metadata_t) : Prog Entity :=
  request this "POST" "/v1/graph/entities"
    (Some (JObj ([("name", JStr name); ("entity_type", JStr entityType)]
                 ++ prop "metadata" JObj metadata)%list)).

Definition searchEntities (this : MaasvClient) (query : string)
    (entityType : option string) (limit : option number) : Prog EntitiesReply :=
  request this "POST" "/v1/graph/entities/search"
    (Some (JObj ([("query", JStr query)]
                 ++ prop "entity_type" JStr entityType
                 ++ [("limit", JNum (nullish limit 10))])%list)).

Definition getEntityProfile (this : MaasvClient) (entityId : string)
  : Prog EntityProfile :=
  request this "GET" ("/v1/graph/entities/" ++ entityId) None.

Definition addRelationship (this : MaasvClient) (req : RelationshipRequest)
  : Prog RelationshipIdReply :=
  request this "POST" "/v1/graph/relationships"
    (Some (json_of_RelationshipRequest req)).

Definition logReasoning (this : MaasvClient) (req : ReasoningRequest)
  : Prog WisdomIdReply :=
  request this "POST" "/v1/wisdom/log" (Some (json_of_ReasoningRequest req)).

Definition recordOutcome (this : MaasvClient) (wisdomId outcome : string)
    (details : option string) : Prog UpdatedReply :=
  request this "POST" ("/v1/wisdom/" ++ wisdomId ++ "/outcome")
    (Some (JObj ([("outcome", JStr outcome)] ++ prop "details" JStr details)%list)).

Definition addFeedback (this : MaasvClient) (wisdomId : string) (score : number)
    (notes : option string) : Prog UpdatedReply :=
  request this "POST" ("/v1/wisdom/" ++ wisdomId ++ "/feedback")
    (Some (JObj ([("score", JNum score)] ++ prop "notes" JStr notes)%list)).

Definition searchWisdom (this : MaasvClient) (query : string)
    (limit : option number) : Prog WisdomReply :=
  request this "POST" "/v1/wisdom/search"
    (Some (JObj [("query", JStr query); ("limit", JNum (nullish limit 10))])).

Definition health (this : MaasvClient) : Prog HealthResponse :=
  request this "GET" "/v1/health" None.

Definition stats (this : MaasvClient) : Prog StatsResponse :=
  request this "GET" "/v1/stats" None.

(** The public methods of [MaasvClient], indexed by the type of the reply. *)
Inductive ClientCall : Type -> Type :=
| CallStoreMemory (req : StoreRequest) : ClientCall MemoryIdReply
| CallSearchMemories (req : SearchRequest) : ClientCall SearchReply
| CallGetContext (req : ContextRequest) : ClientCall ContextReply
| CallGetMemory (memoryId : string) : ClientCall Memory
| CallDeleteMemory (memoryId : string) : ClientCall DeleteReply
| CallSupersedeMemory (oldId newContent : string) : ClientCall MemoryIdReply
| CallExtract (text : string) (topic : option string)
  : ClientCall ExtractionResult
| CallFindOrCreateEntity (name entityType : string)
    (metadata : option metadata_t) : ClientCall Entity
| CallSearchEntities (query : string) (entityType : option string)
    (limit : option number) : ClientCall EntitiesReply
| CallGetEntityProfile (entityId : string) : ClientCall EntityProfile
| CallAddRelationship (req : RelationshipRequest)
  : ClientCall RelationshipIdReply
| CallLogReasoning (req : ReasoningRequest) : ClientCall WisdomIdReply
| CallRecordOutcome (wisdomId outcome : string) (details : option string)
  : ClientCall UpdatedReply
| CallAddFeedback (wisdomId : string) (score : number) (notes : option string)
  : ClientCall UpdatedReply
| CallSearchWisdom (query : string) (limit : option number)
  : ClientCall WisdomReply
| CallHealth : ClientCall HealthResponse
| CallStats : ClientCall StatsResponse.

Definition invoke {T} (this : MaasvClient) (call : ClientCall T) : Prog T :=
  match call with
  | CallStoreMemory req => storeMemory this req
  | CallSearchMemories req => searchMemories this req
  | CallGetContext req => getContext this req
  | CallGetMemory memoryId => getMemory this memoryId
  | CallDeleteMemory memoryId => deleteMemory this memoryId
  | CallSupersedeMemory oldId newContent => supersedeMemory this oldId newContent
  | CallExtract text topic => extract this text topic
  | CallFindOrCreateEntity name entityType metadata =>
      findOrCreateEntity this name entityType metadata
  | CallSearchEntities query entityType limit =>
      searchEntities this query entityType limit
  | CallGetEntityProfile entityId => getEntityProfile this entityId
  | CallAddRelationship req => addRelationship this req
  | CallLogReasoning req => logReasoning this req
  | CallRecordOutcome wisdomId outcome details =>
      recordOutcome this wisdomId outcome details
  | CallAddFeedback wisdomId score notes => addFeedback this wisdomId score notes
  | CallSearchWisdom query limit => searchWisdom this query limit
  | CallHealth => health this
  | CallStats => stats this
  end.

(* ================================================================== *)
(** ** src/tools/*.ts *)

Record ContentBlock := { type : string; text : string }.
Record ToolResult := { content : list ContentBlock }.

(** [{ content: [{ type: "text", text }] }] *)
Definition text_content (t : string) : ToolResult :=
  {| content := [ {| type := "text"; text := t |} ] |}.

(** [xs.map((x, i) => f(x, i))] *)
Fixpoint map_index {A B} (f : A -> nat -> B) (i : nat) (xs : list A) : list B :=
  match xs with
  | [] => []
  | x :: rest => f x i :: map_index f (S i) rest
  end.

Inductive GraphAction := GraphSearch | GraphProfile | GraphAddRelationship.

Inductive WisdomAction := WisdomLog | WisdomOutcome | WisdomFeedback | WisdomSearch.

Record MemorySearchParams := {
  msp_query : string;
  msp_limit : option number;
  msp_category : option string;
  msp_subject : option string
}.

Record MemoryStoreParams := {
  mst_content : string;
  mst_category : string;
  mst_subject : option string;
  mst_confidence : option number
}.

Record MemoryForgetParams := { mfp_id : string }.

Record MemoryGraphParams := {
  mgp_action : GraphAction;
  mgp_query : option string;
  mgp_entity_id : option string;
  mgp_entity_type : option string;
  mgp_subject_id : option string;
  mgp_predicate : option string;
  mgp_object_id : option string;
  mgp_object_value : option string
}.

Record MemoryWisdomParams := {
  mwp_action : WisdomAction;
  mwp_action_type : option string;
  mwp_reasoning : option string;
  mwp_trigger : option string;
  mwp_context : option string;
  mwp_wisdom_id : option string;
  mwp_outcome : option string;
  mwp_details : option string;
  mwp_score : option number;
  mwp_notes : option string;
  mwp_query : option string
}.

Section Tools.

(** How JavaScript prints a number in a template literal, and
    [Number.prototype.toFixed]. *)
Variable String_of_number : number -> string.
Variable toFixed : number -> nat -> string.

Variable client : MaasvClient.

(** memory-search.ts *)
Definition memory_search_execute (params : MemorySearchParams)
  : Prog ToolResult :=
  reply <- searchMemories client
             {| sq_query := msp_query params;
                sq_limit := Some (nullish (msp_limit params) 5);
                sq_category := msp_category params;
                sq_subject := msp_subject params |} ;;
  if Qeq_bool (count reply) 0 then
    Ret (text_content "No memories found.")
  else
    let formatted :=
      String.concat (LF ++ LF)
        (map_index
           (fun m i =>
              let subject :=
                if truthy (mem_subject (memory m))
                then "[" ++ nullish (mem_subject (memory m)) "" ++ "] "
                else "" in
              let score :=
                match _imp_score m with
                | Some s =>
                    if Qeq_bool s 0 then ""
                    else " (score: " ++ toFixed s 3 ++ ")"
                | None => ""
                end in
              string_of_Z (Z.of_nat (i + 1)) ++ ". " ++ subject
              ++ mem_content (memory m) ++ score ++ LF
              ++ "   id: " ++ mem_id (memory m)
              ++ " | category: " ++ mem_category (memory m)
              ++ " | confidence: "
              ++ String_of_number (mem_confidence (memory m)))
           0%nat (results reply)) in
    Ret (text_content
           ("Found " ++ String_of_number (count reply) ++ " memories:"
            ++ LF ++ LF ++ formatted)).

(** memory-store.ts *)
Definition memory_store_execute (params : MemoryStoreParams)
  : Prog ToolResult :=
  result <- storeMemory client
              {| sr_content := mst_content params;
                 sr_category := mst_category params;
                 sr_subject := mst_subject params;
                 sr_source := Some "openclaw";
                 sr_confidence := Some (nullish (mst_confidence params) 1);
                 sr_metadata := None |} ;;
  Ret (text_content ("Stored memory: " ++ memory_id result)).

(** memory-forget.ts *)
Definition memory_forget_execute (params : MemoryForgetParams)
  : Prog ToolResult :=
  try_catch
    (await deleteMemory client (mfp_id params) ;;
     Ret (text_content ("Deleted memory: " ++ mfp_id params)))
    (fun message =>
       Ret (text_content ("Failed to delete memory " ++ mfp_id params
                          ++ ": " ++ message))).

(** memory-graph.ts *)
Definition memory_graph_execute (params : MemoryGraphParams)
  : Prog ToolResult :=
  match mgp_action params with
  | GraphSearch =>
      if negb (truthy (mgp_query params)) then
        Ret (text_content "Error: 'query' required for search action")
      else
        reply <- searchEntities client (nullish (mgp_query params) "")
                   (mgp_entity_type params) None ;;
        if Qeq_bool (ent_count reply) 0 then
          Ret (text_content "No entities found.")
        else
          let formatted :=
            String.concat LF
              (map (fun e => "- " ++ ent_name e ++ " (" ++ ent_entity_type e
                             ++ ") — id: " ++ ent_id e)
                   (ent_results reply)) in
          Ret (text_content
                 ("Found " ++ String_of_number (ent_count reply)
                  ++ " entities:" ++ LF ++ formatted))
  | GraphProfile =>
      if negb (truthy (mgp_entity_id params)) then
        Ret (text_content "Error: 'entity_id' required for profile action")
      else
        profile <- getEntityProfile client
                     (nullish (mgp_entity_id params) "") ;;
        let lines :=
          ("# " ++ ent_name (entity profile) ++ " ("
           ++ ent_entity_type (entity profile) ++ ")")
          :: flat_map
               (fun entry =>
                  map (fun rel =>
                         let target :=
                           nullish (rel_object_name rel)
                             (nullish (rel_object_value rel)
                                (nullish (rel_object_id rel) "null")) in
                         "- " ++ fst entry ++ ": " ++ target)
                      (snd entry))
               (relationships profile) in
        Ret (text_content (String.concat LF lines))
  | GraphAddRelationship =>
      if negb (truthy (mgp_subject_id params))
         || negb (truthy (mgp_predicate params)) then
        Ret (text_content
               "Error: 'subject_id' and 'predicate' required for add_relationship")
      else if negb (truthy (mgp_object_id params))
              && negb (truthy (mgp_object_value params)) then
        Ret (text_content
               "Error: either 'object_id' or 'object_value' required")
      else
        result <- addRelationship client
                    {| rr_subject_id := nullish (mgp_subject_id params) "";
                       rr_predicate := nullish (mgp_predicate params) "";
                       rr_object_id := mgp_object_id params;
                       rr_object_value := mgp_object_value params;
                       rr_confidence := None;
                       rr_source := None |} ;;
        Ret (text_content ("Created relationship: " ++ relationship_id result))
  end.

(** memory-wisdom.ts *)
Definition memory_wisdom_execute (params : MemoryWisdomParams)
  : Prog ToolResult :=
  match mwp_action params with
  | WisdomLog =>
      if negb (truthy (mwp_action_type params))
         || negb (truthy (mwp_reasoning params)) then
        Ret (text_content
               "Error: 'action_type' and 'reasoning' required for log action")
      else
        result <- logReasoning client
                    {| lr_action_type := nullish (mwp_action_type params) "";
                       lr_reasoning := nullish (mwp_reasoning params) "";
                       lr_action_data := None;
                       lr_trigger := mwp_trigger params;
                       lr_context := mwp_context params;
                       lr_tags := None |} ;;
        Ret (text_content ("Logged reasoning: " ++ wisdom_id result))
  | WisdomOutcome =>
      if negb (truthy (mwp_wisdom_id params))
         || negb (truthy (mwp_outcome params)) then
        Ret (text_content "Error: 'wisdom_id' and 'outcome' required")
      else
        await recordOutcome client
                (nullish (mwp_wisdom_id params) "")
                (nullish (mwp_outcome params) "")
                (mwp_details params) ;;
        Ret (text_content
               ("Recorded outcome for " ++ nullish (mwp_wisdom_id params) ""
                ++ ": " ++ nullish (mwp_outcome params) ""))
  | WisdomFeedback =>
      if negb (truthy (mwp_wisdom_id params))
         || is_undefined (mwp_score params) then
        Ret (text_content "Error: 'wisdom_id' and 'score' required")
      else
        await addFeedback client
                (nullish (mwp_wisdom_id params) "")
                (nullish (mwp_score params) 0)
                (mwp_notes params) ;;
        Ret (text_content
               ("Added feedback for " ++ nullish (mwp_wisdom_id params) ""
                ++ ": " ++ String_of_number (nullish (mwp_score params) 0)
                ++ "/5"))
  | WisdomSearch =>
      if negb (truthy (mwp_query params)) then
        Ret (text_content "Error: 'query' required for search action")
      else
        reply <- searchWisdom client (nullish (mwp_query params) "") None ;;
        if Qeq_bool (wis_count reply) 0 then
          Ret (text_content "No wisdom entries found.")
        else
          let formatted :=
            String.concat LF
              (map (fun w =>
                      let scoreStr :=
                        match wis_feedback_score w with
                        | Some s => " (" ++ String_of_number s ++ "/5)"
                        | None => ""
                        end in
                      "- [" ++ wis_outcome w ++ scoreStr ++ "] "
                      ++ wis_action_type w ++ ": "
                      ++ slice (wis_reasoning w) 0 200)
                   (wis_results reply)) in
          Ret (text_content
                 ("Found " ++ String_of_number (wis_count reply)
                  ++ " wisdom entries:" ++ LF ++ formatted))
  end.

End Tools.

(* ================================================================== *)
(** ** src/index.ts *)

Definition DEFAULT_CONFIG : PluginConfig :=
  {| serverUrl := "http://127.0.0.1:18790";
     apiKey := None;
     autoRecall := true;
     autoCapture := true;
     maxRecallResults := 5;
     maxRecallTokens := 2000;
     enableGraph := true;
     enableWisdom := false |}.

(** [{}] *)
Definition empty_object : RawConfig :=
  {| raw_serverUrl := None;
     raw_apiKey := None;
     raw_autoRecall := None;
     raw_autoCapture := None;
     raw_maxRecallResults := None;
     raw_maxRecallTokens := None;
     raw_enableGraph := None;
     raw_enableWisdom := None |}.

(** One key of [{ ...base, ...raw }]: the later object wins where it has the
    key. *)
Definition spread_key {A} (base : A) (raw : option A) : A :=
  match raw with
  | Some v => v
  | None => base
  end.

(** [{ ...base, ...raw }] *)
Definition spread (base : PluginConfig) (raw : RawConfig) : PluginConfig :=
  {| serverUrl := spread_key (serverUrl base) (raw_serverUrl raw);
     apiKey := match raw_apiKey raw with
               | Some key => Some key
               | None => apiKey base
               end;
     autoRecall := spread_key (autoRecall base) (raw_autoRecall raw);
     autoCapture := spread_key (autoCapture base) (raw_autoCapture raw);
     maxRecallResults :=
       spread_key (maxRecallResults base) (raw_maxRecallResults raw);
     maxRecallTokens :=
       spread_key (maxRecallTokens base) (raw_maxRecallTokens raw);
     enableGraph := spread_key (enableGraph base) (raw_enableGraph raw);
     enableWisdom := spread_key (enableWisdom base) (raw_enableWisdom raw) |}.

(** A message of [event.context.messages].  A content that is not a string
    is kept as what [JSON.stringify] makes of it. *)
Inductive Stringified :=
| StringifyString (s : string)
| StringifyUndefined
| StringifyThrows (message : string).

Inductive Content :=
| ContentString (s : string)
| ContentOther (value : Stringified).

Record Message := { role : string; msg_content : Content }.

(** The agent event: [userMessage] is [Some] when [event.userMessage] is a
    string, [messages] is [Some] when [event?.context?.messages] is truthy. *)
Record AgentEvent := {
  userMessage : option string;
  messages : option (list Message)
}.

Definition JSON_stringify (value : Stringified) : Prog (option string) :=
  match value with
  | StringifyString s => Ret (Some s)
  | StringifyUndefined => Ret None
  | StringifyThrows m => Throw m
  end.

Definition extractUserMessage (event : AgentEvent) : Prog (option string) :=
  match userMessage event with
  | Some s => Ret (Some s)
  | None =>
      match messages event with
      | Some messages =>
          match find (fun m => role m =? "user") (rev messages) with
          | Some m =>
              match msg_content m with
              | ContentString s => Ret (Some s)
              | ContentOther value => JSON_stringify value
              end
          | None => Ret None
          end
      | None => Ret None
      end
  end.

Fixpoint conversation_parts (messages : list Message) : Prog (list string) :=
  match messages with
  | [] => Ret []
  | msg :: rest =>
      if (role msg =? "user") || (role msg =? "assistant") then
        content <- match msg_content msg with
                   | ContentString s => Ret s
                   | ContentOther value =>
                       s <- JSON_stringify value ;; Ret (nullish s "undefined")
                   end ;;
        parts <- conversation_parts rest ;;
        Ret ((role msg ++ ": " ++ content) :: parts)
      else conversation_parts rest
  end.

Definition extractConversation (event : AgentEvent) : Prog (option string) :=
  match messages event with
  | None => Ret None
  | Some messages =>
      parts <- conversation_parts messages ;;
      if (0 <? List.length parts)%nat
      then Ret (Some (String.concat (LF ++ LF) parts))
      else Ret None
  end.

Record HookResult := { prependContext : string }.

(** [a > b] on numbers. *)
Definition Qgtb (a b : number) : bool := negb (Qle_bool a b).

Definition number_of_nat (n : nat) : number := inject_Z (Z.of_nat n).

(** [Math.ceil] *)
Definition Math_ceil (q : number) : number := inject_Z (Qceiling q).

Section Hooks.

Variable config : PluginConfig.
Variable client : MaasvClient.

(** [api.on("before_agent_start", ...)] *)
Definition before_agent_start (event : AgentEvent)
  : Prog (option HookResult) :=
  if negb (autoRecall config) then Ret None
  else
    userMessage <- extractUserMessage event ;;
    if negb (truthy userMessage) then Ret None
    else
      try_catch
        (reply <- getContext client
                    {| cr_query := userMessage;
                       cr_core_limit := Some (maxRecallResults config);
                       cr_relevant_limit :=
                         Some (Math_ceil (maxRecallResults config / 2));
                       cr_use_semantic := Some true |} ;;
         let context := context reply in
         if negb (context =? "") && (0 <? String.length context)%nat then
           let maxChars := maxRecallTokens config * 4 in
           let truncated :=
             if Qgtb (number_of_nat (String.length context)) maxChars
             then slice context 0 maxChars ++ LF ++ "[truncated]"
             else context in
           Ret (Some {| prependContext :=
                          "<long_term_memory>" ++ LF ++ truncated ++ LF
                          ++ "</long_term_memory>" |})
         else Ret None)
        (fun message =>
           Log LogWarn ("Auto-recall failed: " ++ message) (Ret None)).

(** [api.on("agent_end", ...)] *)
Definition agent_end (event : AgentEvent) : Prog unit :=
  if negb (autoCapture config) then Ret tt
  else
    try_catch
      (conversationText <- extractConversation event ;;
       if negb (truthy conversationText)
          || (String.length (nullish conversationText "") <? 50)%nat
       then Ret tt
       else
         await extract client (nullish conversationText "") None ;;
         Ret tt)
      (fun message =>
         Log LogWarn ("Auto-capture failed: " ++ message) (Ret tt)).

End Hooks.

(** [api.registerService({ start, stop })] *)
Definition service_start (config : PluginConfig) (client : MaasvClient)
  : Prog unit :=
  try_catch
    (reply <- health client ;;
     Log LogInfo
       ("maasv connected: "
        ++ match health_status reply with
           | healthy => "healthy"
           | unhealthy => "unhealthy"
           end)
       (Ret tt))
    (fun message =>
       Log LogError
         ("Failed to connect to maasv-server at " ++ serverUrl config ++ ": "
          ++ message)
         (Ret tt)).

Definition service_stop : Prog unit :=
  Log LogInfo "maasv memory service stopped" (Ret tt).

(** What [register(api)] sets up: the effective configuration, the client,
    the names of the tools it registers, and the two hooks. *)
Record Registration := {
  reg_config : PluginConfig;
  reg_client : MaasvClient;
  reg_tools : list string;
  reg_before_agent_start : AgentEvent -> Prog (option HookResult);
  reg_agent_end : AgentEvent -> Prog unit
}.

Definition register (pluginConfig : option RawConfig) : Registration :=
  let rawConfig := nullish pluginConfig empty_object in
  let config := spread DEFAULT_CONFIG rawConfig in
  let client := new_MaasvClient config in
  {| reg_config := config;
     reg_client := client;
     reg_tools :=
       (["memory_search"; "memory_store"; "memory_forget"]
        ++ (if enableGraph config then ["memory_graph"] else [])
        ++ (if enableWisdom config then ["memory_wisdom"] else []))%list;
     reg_before_agent_start := before_agent_start config client;
     reg_agent_end := agent_end config client |}.

(* ================================================================== *)
(** ** The cognition service, as the specification describes it

    The service is a separate program (maasv-server); the plugin only calls
    it through [MaasvClient].  What follows is written from sections 3, 4.2
    and 4.3 of the specification, not from code. *)

Module Service.

(** [a < b] on numbers, for "distance ... is below ... threshold". *)
Definition Qltb (a b : number) : bool := negb (Qle_bool b a).

Section Dedup.

(** Modelled from the spec: the embedding provider and the embedding
  distance are outside the repository; the specification only says
  that the service "computes an embedding" and compares an "embedding
  distance" with "a fixed near-duplicate threshold". *)
Variable embedding : Type.
Variable embed : string -> embedding.
Variable distance : embedding -> embedding -> number.
Variable threshold : number.

(** Modelled from the spec: how the service names a new memory is not
  specified; any choice is allowed. *)
Variable new_id : list Memory -> string.

(** Modelled from the spec: "an existing memory's embedding distance to
  the new content is below a fixed near-duplicate threshold"
  (section 4.2). *)
Definition near_duplicate (content : string) (existing : Memory) : bool :=
Qltb (distance (embed (mem_content existing)) (embed content)) threshold.

(** Modelled from the spec: the store operation of the service, missing
  from the repository (section 4.2: "if an existing memory's embedding
  distance to the new content is below a fixed near-duplicate
  threshold, return the existing memory's ID without creating a new
  record (idempotent store). Otherwise insert a new memory with
  access_count=0").  [now] is the time of the call. *)
Definition store (now : string) (req : StoreRequest) (memories : list Memory)
: string * list Memory :=
match find (near_duplicate (sr_content req)) memories with
| Some existing => (mem_id existing, memories)
| None =>
    let inserted :=
      {| mem_id := new_id memories;
         mem_content := sr_content req;
         mem_category := sr_category req;
         mem_subject := sr_subject req;
         mem_source := nullish (sr_source req) "";
         mem_confidence := nullish (sr_confidence req) 1;
         mem_importance := None;
         mem_access_count := 0;
         mem_created_at := now;
         mem_updated_at := now;
         mem_metadata := sr_metadata req |} in
    (mem_id inserted, (memories ++ [inserted])%list)
end.

End Dedup.

(** Modelled from the spec: a relationship has "object_id OR object_value
    (exactly one set)" (section 3). *)
Inductive Object :=
| ObjectId (id : string)
| ObjectValue (value : string).

(** Modelled from the spec: "the new object differs" / "the object is
    unchanged" (section 4.3) compare the kind of the object and its text. *)
Definition Object_eqb (a b : Object) : bool :=
  match a, b with
  | ObjectId x, ObjectId y => x =? y
  | ObjectValue x, ObjectValue y => x =? y
  | _, _ => false
  end.

(** Modelled from the spec: the relationship record of the service
    (section 3: "id, subject_id, predicate, object_id OR object_value,
    valid_from, valid_to (nullable = currently valid), confidence").
    Identifiers are numbered in the order of creation and times are
    counted in ticks. *)
Record Relationship := {
  r_id : nat;
  r_subject_id : string;
  r_predicate : string;
  r_object : Object;
  r_valid_from : nat;
  r_valid_to : option nat;
  r_confidence : number
}.

(** Modelled from the spec: the relationships that the service holds, in the
    order of creation, and the identifier of the next one.  Nothing is ever
    removed ("never mutates history in place", section 3). *)
Record Graph := {
  rels : list Relationship;
  next_id : nat
}.

Definition empty_graph : Graph := {| rels := []; next_id := 0 |}.

(** Modelled from the spec: "valid_to (nullable = currently valid)"
    (section 3). *)
Definition currently_valid (r : Relationship) : bool :=
  match r_valid_to r with
  | None => true
  | Some _ => false
  end.

(** Modelled from the spec: "a currently-valid relationship with the same
    (subject, predicate)" (section 4.3). *)
Definition valid_about (subject predicate : string) (r : Relationship) : bool :=
  currently_valid r
  && (r_subject_id r =? subject) && (r_predicate r =? predicate).

(** Modelled from the spec: "close the old relationship (set valid_to =
    now)" (section 4.3); the old relationship is found by its identifier. *)
Definition close (now : nat) (old : nat) (r : Relationship) : Relationship :=
  if (r_id r =? old)%nat then
    {| r_id := r_id r;
       r_subject_id := r_subject_id r;
       r_predicate := r_predicate r;
       r_object := r_object r;
       r_valid_from := r_valid_from r;
       r_valid_to := Some now;
       r_confidence := r_confidence r |}
  else r.

(** Modelled from the spec: the add_relationship operation of the service,
    missing from the repository (section 4.3: "if a currently-valid
    relationship with the same (subject, predicate) already exists and the
    new object differs, close the old relationship (set valid_to = now)
    and open a new one; if the object is unchanged, it is a no-op
    returning the existing ID"); with no such relationship a new one is
    opened. *)
Definition add_relationship (now : nat) (subject predicate : string)
    (object : Object) (confidence : number) (g : Graph) : nat * Graph :=
  let opened :=
    {| r_id := next_id g;
       r_subject_id := subject;
       r_predicate := predicate;
       r_object := object;
       r_valid_from := now;
       r_valid_to := None;
       r_confidence := confidence |} in
  match find (valid_about subject predicate) (rels g) with
  | Some old =>
      if Object_eqb (r_object old) object then (r_id old, g)
      else
        (next_id g,
         {| rels := (map (close now (r_id old)) (rels g) ++ [opened])%list;
            next_id := S (next_id g) |})
  | None =>
      (next_id g,
       {| rels := (rels g ++ [opened])%list; next_id := S (next_id g) |})
  end.

(** Modelled from the spec: the relationships part of the profile
    operation, missing from the repository (section 4.3: "for every
    predicate, the set of currently valid relationships grouped by
    predicate"): the group of one predicate. *)
Definition profile (g : Graph) (entity_id predicate : string)
  : list Relationship :=
  filter (valid_about entity_id predicate) (rels g).

(** Modelled from the spec: the graphs that the service can be in; it
    starts empty and add_relationship is the only operation of section 4.3
    that changes relationships. *)
Inductive reachable : Graph -> Prop :=
| reachable_empty : reachable empty_graph
| reachable_add now subject predicate object confidence g :
    reachable g ->
    reachable (snd (add_relationship now subject predicate object confidence g)).

(** Modelled from the spec: "at most one relationship with the same
    (subject, predicate, object) may be valid (valid_to = null) at a time"
    (section 3). *)
Definition at_most_one_valid (g : Graph) : Prop :=
  forall subject predicate object,
    (List.length
       (filter (fun r => valid_about subject predicate r
                         && Object_eqb (r_object r) object)
               (rels g)) <= 1)%nat.

End Service.

(* ================================================================== *)
(** ** Predicates and sample data used in the statements *)

(** A run of [n] slashes. *)
Fixpoint slashes (n : nat) : string :=
  match n with
  | O => EmptyString
  | S k => String "/" (slashes k)
  end.

(** The claim's "a required parameter is missing", tool by tool. *)
Definition graph_missing_required (params : MemoryGraphParams) : Prop :=
  match mgp_action params with
  | GraphSearch => mgp_query params = None
  | GraphProfile => mgp_entity_id params = None
  | GraphAddRelationship =>
      mgp_subject_id params = None \/ mgp_predicate params = None
      \/ (mgp_object_id params = None /\ mgp_object_value params = None)
  end.

Definition wisdom_missing_required (params : MemoryWisdomParams) : Prop :=
  match mwp_action params with
  | WisdomLog => mwp_action_type params = None \/ mwp_reasoning params = None
  | WisdomOutcome => mwp_wisdom_id params = None \/ mwp_outcome params = None
  | WisdomFeedback => mwp_wisdom_id params = None \/ mwp_score params = None
  | WisdomSearch => mwp_query params = None
  end.

(** A tool result made of one text block whose text starts with "Error:". *)
Definition error_result (r : ToolResult) : Prop :=
  exists t, r = text_content t /\ prefix "Error:" t = true.

(** The program is one request whose failure, as [request] throws it, leaves
    the program as the same exception. *)
Definition propagates_failure {A} (method path : string) (p : Prog A) : Prop :=
  match p with
  | Fetch T _ _ k =>
      forall o m, handle_response (T:=T) method path o = Throw m -> k o = Throw m
  | _ => False
  end.

(** The program is one request, and it ends in a return whatever the request
    yields. *)
Definition catches_failure {A} (p : Prog A) : Prop :=
  match p with
  | Fetch _ _ _ k => forall o, exists a, k o = Ret a
  | _ => False
  end.

(** What the claim asks of a best-effort hook around one client call: if the
    hook reaches the call, every outcome on which the call throws [m] makes
    the hook log "[label][m]" as a warning and return [nothing], and no
    outcome makes it throw; otherwise the hook sends nothing. *)
Definition swallows {A} (method path label : string) (nothing : A)
    (hook : Prog A) : Prop :=
  match hook with
  | Fetch T _ _ k =>
      (forall o m,
          handle_response (T:=T) method path o = Throw m ->
          k o = Log LogWarn (label ++ m) (Ret nothing))
      /\ (forall o, no_throw (k o))
  | other => no_fetch other
  end.

(** The event holds no message of role user or assistant. *)
Definition no_conversation (event : AgentEvent) : Prop :=
  match messages event with
  | None => True
  | Some ms => forall m, In m ms -> role m <> "user" /\ role m <> "assistant"
  end.

(** The extract request for a conversation text. *)
Definition extract_request (client : MaasvClient) (text : string)
  : string * RequestInit :=
  (baseUrl client ++ "/v1/extract",
   {| init_method := "POST";
      init_headers := headers client;
      init_body := Some (JObj [("text", JStr text); ("topic", JStr "")]) |}).

(** The marker that the auto-recall hook appends to a cut context, and the
    tags it puts around the blob. *)
Definition truncation_marker : string := LF ++ "[truncated]".

Definition long_term_memory (blob : string) : string :=
  "<long_term_memory>" ++ LF ++ blob ++ LF ++ "</long_term_memory>".

(** The bound of the claim for one configuration: whatever the hook emits is
    a blob between the long_term_memory tags, of at most
    4 * maxRecallTokens characters plus the length of the marker. *)
Definition recall_bound (config : PluginConfig) : Prop :=
  forall (client : MaasvClient) (event : AgentEvent) (result : HookResult),
    may_return (before_agent_start config client event) (Some result) ->
    exists blob,
      prependContext result = long_term_memory blob
      /\ (number_of_nat (String.length blob)
          <= 4 * maxRecallTokens config
             + number_of_nat (String.length truncation_marker))%Q.

(** The configuration that asks for a budget of -1 token. *)
Definition negative_budget : RawConfig :=
  {| raw_serverUrl := None;
     raw_apiKey := None;
     raw_autoRecall := None;
     raw_autoCapture := None;
     raw_maxRecallResults := None;
     raw_maxRecallTokens := Some (-1);
     raw_enableGraph := None;
     raw_enableWisdom := None |}.

(** A distance that tells equal contents from different ones, for the
    examples. *)
Definition discrete_distance (a b : string) : number :=
  if a =? b then 0 else 1.

(** A service that names its memories mem_0, mem_1, ... and takes 0.05 as
    threshold, and a request, for the examples. *)
Definition example_store : string -> StoreRequest -> list Memory
                           -> string * list Memory :=
  Service.store string (fun s => s) discrete_distance (1 # 20)
    (fun ms => "mem_" ++ string_of_Z (Z.of_nat (List.length ms))).

Definition likes_coffee : StoreRequest :=
  {| sr_content := "likes coffee"; sr_category := "preference";
     sr_subject := None; sr_source := Some "openclaw";
     sr_confidence := Some 1; sr_metadata := None |}.

(** The invariant of the reachable graphs: identifiers are 0, 1, ... in the
    order of the list, and a subject has at most one currently valid
    relationship for a predicate. *)
Definition well_formed (g : Service.Graph) : Prop :=
  map Service.r_id (Service.rels g) = seq 0 (Service.next_id g)
  /\ forall subject predicate,
       (List.length (Service.profile g subject predicate) <= 1)%nat.

(** Sample inputs for the tools and the hooks. *)
Definition sample_raw_config : RawConfig :=
  {| raw_serverUrl := Some "http://10.0.0.5:9000/";
     raw_apiKey := Some "secret";
     raw_autoRecall := None;
     raw_autoCapture := None;
     raw_maxRecallResults := None;
     raw_maxRecallTokens := Some 500;
     raw_enableGraph := None;
     raw_enableWisdom := Some true |}.

Definition sample_client : MaasvClient := new_MaasvClient DEFAULT_CONFIG.

Definition sample_number_printer (q : number) : string :=
  string_of_Z (ToIntegerOrInfinity q).

Definition profile_without_entity : MemoryGraphParams :=
  {| mgp_action := GraphProfile;
     mgp_query := None;
     mgp_entity_id := None;
     mgp_entity_type := None;
     mgp_subject_id := None;
     mgp_predicate := None;
     mgp_object_id := None;
     mgp_object_value := None |}.

Definition feedback_params (id : option string) (score : option number)
  : MemoryWisdomParams :=
  {| mwp_action := WisdomFeedback;
     mwp_action_type := None;
     mwp_reasoning := None;
     mwp_trigger := None;
     mwp_context := None;
     mwp_wisdom_id := id;
     mwp_outcome := None;
     mwp_details := None;
     mwp_score := score;
     mwp_notes := None;
     mwp_query := None |}.

Definition short_conversation : AgentEvent :=
  {| userMessage := None;
     messages := Some [ {| role := "user"; msg_content := ContentString "hi" |} ] |}.

Definition long_conversation : AgentEvent :=
  {| userMessage := None;
     messages :=
       Some [ {| role := "user";
                 msg_content := ContentString "I moved to Lisbon last month." |};
              {| role := "system"; msg_content := ContentString "ignored" |};
              {| role := "assistant";
                 msg_content := ContentString "Noted, Lisbon it is." |} ] |}.

(* ================================================================== *)
(** ** src/index.ts: the gateway methods *)

(** [api.registerGatewayMethod("maasv.status", async ({ respond }) => ...)].
    The handler calls [respond] once, with [true] and the reply or with
    [false] and [{ error: message }]; the program returns the arguments of
    that call ([respond] itself is the host's and is taken not to throw). *)
Definition gateway_status (client : MaasvClient)
  : Prog (bool * (HealthResponse + string)) :=
  try_catch
    (health <- health client ;; Ret (true, inl health))
    (fun message => Ret (false, inr message)).

(** [api.registerGatewayMethod("maasv.stats", async ({ respond }) => ...)] *)
Definition gateway_stats (client : MaasvClient)
  : Prog (bool * (StatsResponse + string)) :=
  try_catch
    (s <- stats client ;; Ret (true, inl s))
    (fun message => Ret (false, inr message)).

(* ================================================================== *)
(** ** More predicates used in the statements *)

(** The program performs at most one fetch, whatever that fetch yields. *)
Fixpoint at_most_one_fetch {A} (p : Prog A) : Prop :=
  match p with
  | Ret _ | Throw _ => True
  | Fetch _ _ _ k => forall o, no_fetch (k o)
  | Log _ _ k => at_most_one_fetch k
  end.

(** [msg.role === "user" || msg.role === "assistant"] *)
Definition in_conversation (msg : Message) : bool :=
  (role msg =? "user") || (role msg =? "assistant").

(** The content of a message can be turned into text: it is a string, or
    [JSON.stringify] does not throw on it. *)
Definition printable (msg : Message) : Prop :=
  match msg_content msg with
  | ContentOther (StringifyThrows _) => False
  | _ => True
  end.

(** The line that [extractConversation] makes of a printable message. *)
Definition conversation_line (msg : Message) : string :=
  role msg ++ ": "
  ++ match msg_content msg with
     | ContentString s => s
     | ContentOther (StringifyString s) => s
     | ContentOther _ => "undefined"
     end.

(** The line that the profile action of memory_graph prints for one
    relationship of a predicate: the first of object_name, object_value and
    object_id that is not null or undefined, or "null". *)
Definition profile_line (predicate : string) (rel : Relationship) : string :=
  "- " ++ predicate ++ ": "
  ++ match rel_object_name rel, rel_object_value rel, rel_object_id rel with
     | Some name, _, _ => name
     | None, Some value, _ => value
     | None, None, Some object => object
     | None, None, None => "null"
     end.

(** What the profile action of memory_graph reads of a relationship. *)
Definition shown_target (rel : Relationship)
  : option string * option string * option string :=
  (rel_object_name rel, rel_object_value rel, rel_object_id rel).

Definition shown_relationships (profile : EntityProfile)
  : list (string * list (option string * option string * option string)) :=
  map (fun entry => (fst entry, map shown_target (snd entry)))
      (relationships profile).

(** The parameters that an action of memory_graph needs are there and not
    empty. *)
Definition graph_required_present (params : MemoryGraphParams) : bool :=
  match mgp_action params with
  | GraphSearch => truthy (mgp_query params)
  | GraphProfile => truthy (mgp_entity_id params)
  | GraphAddRelationship =>
      truthy (mgp_subject_id params) && truthy (mgp_predicate params)
      && (truthy (mgp_object_id params) || truthy (mgp_object_value params))
  end.

(** The same for memory_wisdom; a score only has to be there. *)
Definition wisdom_required_present (params : MemoryWisdomParams) : bool :=
  match mwp_action params with
  | WisdomLog => truthy (mwp_action_type params) && truthy (mwp_reasoning params)
  | WisdomOutcome => truthy (mwp_wisdom_id params) && truthy (mwp_outcome params)
  | WisdomFeedback =>
      truthy (mwp_wisdom_id params) && negb (is_undefined (mwp_score params))
  | WisdomSearch => truthy (mwp_query params)
  end.

(** More sample inputs. *)
Definition profile_of_entity (id : string) : MemoryGraphParams :=
  {| mgp_action := GraphProfile;
     mgp_query := None;
     mgp_entity_id := Some id;
     mgp_entity_type := None;
     mgp_subject_id := None;
     mgp_predicate := None;
     mgp_object_id := None;
     mgp_object_value := None |}.

(** A reply of the profile endpoint with two relationships under one
    predicate, the first of them closed. *)
Definition sample_relationship (value : string) (valid_to : option string)
  : Relationship :=
  {| rel_id := "rel_" ++ value;
     rel_subject_id := "ent_A";
     rel_predicate := "works_on";
     rel_object_id := None;
     rel_object_value := Some value;
     rel_valid_from := "2026-01-01T00:00:00Z";
     rel_valid_to := valid_to;
     rel_confidence := 1;
     rel_subject_name := Some "Ada";
     rel_object_name := None |}.

Definition sample_profile : EntityProfile :=
  {| entity :=
       {| ent_id := "ent_A";
          ent_name := "Ada";
          ent_entity_type := "person";
          ent_canonical_name := "ada";
          ent_metadata := None;
          ent_access_count := 0 |};
     relationships :=
       [("works_on",
         [sample_relationship "ProjectX" (Some "2026-02-01T00:00:00Z");
          sample_relationship "ProjectY" None])];
     related_entities := [] |}.

Definition relate_with_both_objects : MemoryGraphParams :=
  {| mgp_action := GraphAddRelationship;
     mgp_query := None;
     mgp_entity_id := None;
     mgp_entity_type := None;
     mgp_subject_id := Some "ent_A";
     mgp_predicate := Some "works_on";
     mgp_object_id := Some "ent_B";
     mgp_object_value := Some "ProjectX" |}.

Definition wisdom_search_for (query : string) : MemoryWisdomParams :=
  {| mwp_action := WisdomSearch;
     mwp_action_type := None;
     mwp_reasoning := None;
     mwp_trigger := None;
     mwp_context := None;
     mwp_wisdom_id := None;
     mwp_outcome := None;
     mwp_details := None;
     mwp_score := None;
     mwp_notes := None;
     mwp_query := Some query |}.

Definition unreadable_user_message : AgentEvent :=
  {| userMessage := None;
     messages :=
       Some [ {| role := "user";
                 msg_content :=
                   ContentOther (StringifyThrows "circular structure") |} ] |}.

(* ================================================================== *)
(** ** Strings and numbers *)

Lemma length_append (a b : string) :
  String.length (a ++ b) = (String.length a + String.length b)%nat.
Proof. induction a as [|c a IH]; simpl; [reflexivity | now rewrite IH]. Qed.

Lemma substring_length_le (s : string) :
  forall n m, (String.length (substring n m s) <= m)%nat.
Proof.
  induction s as [|c s IH]; intros n m.
  - destruct n, m; simpl; lia.
  - destruct n as [|n].
    + destruct m as [|m]; simpl; [lia|]. specialize (IH 0%nat m). lia.
    + simpl. apply IH.
Qed.

Lemma ToIntegerOrInfinity_nonneg (q : number) :
  (0 <= q)%Q ->
  (0 <= ToIntegerOrInfinity q)%Z /\ (inject_Z (ToIntegerOrInfinity q) <= q)%Q.
Proof.
  destruct q as [a b]. unfold Qle, ToIntegerOrInfinity. simpl. intros Ha.
  assert (0 <= a)%Z by lia.
  rewrite Z.quot_div_nonneg by lia.
  split.
  - apply Z.div_pos; lia.
  - rewrite Z.mul_1_r, Z.mul_comm. apply Z.mul_div_le. lia.
Qed.

(** [s.slice(0, q)] holds at most [q] characters when [q] is not negative. *)
Lemma slice_length_le (s : string) (q : number) :
  (0 <= q)%Q -> (number_of_nat (String.length (slice s 0 q)) <= q)%Q.
Proof.
  intros Hq. destruct (ToIntegerOrInfinity_nonneg q Hq) as [H0 Hle].
  unfold slice. cbv zeta.
  replace (ToIntegerOrInfinity 0) with 0%Z by reflexivity.
  replace (0 <? 0)%Z with false by reflexivity.
  destruct (ToIntegerOrInfinity q <? 0)%Z eqn:Hneg; [apply Z.ltb_lt in Hneg; lia|].
  set (len := Z.of_nat (String.length s)).
  assert (0 <= len)%Z by (unfold len; lia).
  rewrite (Z.min_l 0 len) by lia.
  destruct (0 >=? Z.min (ToIntegerOrInfinity q) len)%Z.
  - simpl. exact Hq.
  - eapply Qle_trans; [|exact Hle].
    unfold number_of_nat. rewrite <- Zle_Qle.
    pose proof (substring_length_le s (Z.to_nat 0)
                  (Z.to_nat (Z.min (ToIntegerOrInfinity q) len - 0))).
    lia.
Qed.

Lemma Qgtb_false (a b : number) : Qgtb a b = false -> (a <= b)%Q.
Proof.
  unfold Qgtb. intros H. apply negb_false_iff in H. now apply Qle_bool_iff.
Qed.

(** What [strip_trailing_slashes] keeps does not end in a slash, and only
    slashes were removed after it. *)
Lemma strip_trailing_slashes_spec (s : string) :
  exists n, s = strip_trailing_slashes s ++ slashes n
            /\ forall t, strip_trailing_slashes s <> t ++ "/".
Proof.
  induction s as [|c s (n & Hs & Hno)]; simpl.
  - exists 0%nat. split; [reflexivity|]. intros [|? ?]; discriminate.
  - destruct (strip_trailing_slashes s) as [|d kept] eqn:E.
    + destruct (Ascii.eqb_spec c "/") as [->|Hc].
      * exists (S n). split; [simpl in *; now rewrite Hs at 1|].
        intros [|? ?]; discriminate.
      * exists n. split; [simpl in *; now rewrite Hs at 1|].
        intros [|x [|y t]]; simpl; intros H; inversion H; congruence.
    + exists n. split; [simpl in *; now rewrite Hs at 1|].
      intros [|x t]; simpl; intros H; inversion H; subst.
      eapply Hno. eassumption.
Qed.

(* ================================================================== *)
(** ** The effect trees *)

Lemma no_fetch_first_request {A} (p : Prog A) :
  no_fetch p <-> first_request p = None.
Proof.
  induction p; simpl; try tauto; split; try easy.
Qed.

Lemma no_fetch_handle_response {T} (method path : string) (o : FetchOutcome T) :
  no_fetch (handle_response method path o).
Proof.
  destruct o as [m|r]; simpl; [exact I|].
  destruct (ok r); simpl; [destruct (json_result r)|]; exact I.
Qed.

Lemma no_fetch_bind {A B} (p : Prog A) (f : A -> Prog B) :
  no_fetch p -> (forall a, no_fetch (f a)) -> no_fetch (bind p f).
Proof. induction p; simpl; auto. Qed.

Lemma no_fetch_try_catch {A} (p : Prog A) (h : string -> Prog A) :
  no_fetch p -> (forall m, no_fetch (h m)) -> no_fetch (try_catch p h).
Proof. induction p; simpl; auto. Qed.

Lemma no_throw_try_catch {A} (p : Prog A) (h : string -> Prog A) :
  (forall m, no_throw (h m)) -> no_throw (try_catch p h).
Proof. intros Hh. induction p; simpl; auto. Qed.

(* ================================================================== *)
(** ** The effective configuration *)

(** C8. With no plugin configuration, [register] works with exactly the
    documented defaults (and no [apiKey]); with a configuration, every key it
    holds replaces the default of that key. *)
Theorem register_effective_config :
  reg_config (register None)
  = {| serverUrl := "http://127.0.0.1:18790";
       apiKey := None;
       autoRecall := true;
       autoCapture := true;
       maxRecallResults := 5;
       maxRecallTokens := 2000;
       enableGraph := true;
       enableWisdom := false |}
  /\ forall raw : RawConfig,
       let config := reg_config (register (Some raw)) in
       (forall v, raw_serverUrl raw = Some v -> serverUrl config = v)
       /\ (forall v, raw_apiKey raw = Some v -> apiKey config = Some v)
       /\ (forall v, raw_autoRecall raw = Some v -> autoRecall config = v)
       /\ (forall v, raw_autoCapture raw = Some v -> autoCapture config = v)
       /\ (forall v, raw_maxRecallResults raw = Some v ->
                     maxRecallResults config = v)
       /\ (forall v, raw_maxRecallTokens raw = Some v ->
                     maxRecallTokens config = v)
       /\ (forall v, raw_enableGraph raw = Some v -> enableGraph config = v)
       /\ (forall v, raw_enableWisdom raw = Some v -> enableWisdom config = v).
Proof.
  split; [reflexivity|].
  intros raw. cbv zeta. simpl.
  repeat split; intros v E; rewrite E; reflexivity.
Qed.

Lemma register_effective_config_witness :
  raw_maxRecallTokens sample_raw_config = Some 500
  /\ maxRecallTokens (reg_config (register (Some sample_raw_config))) = 500
  /\ apiKey (reg_config (register (Some sample_raw_config))) = Some "secret".
Proof.
  destruct register_effective_config as [_ H].
  destruct (H sample_raw_config) as (_ & Hkey & _ & _ & _ & Htokens & _).
  split; [reflexivity|]. split.
  - apply Htokens. reflexivity.
  - apply Hkey. reflexivity.
Defined.

(** A key that the supplied configuration does not hold keeps its default. *)
Lemma register_keeps_defaults (raw : RawConfig) :
  let config := reg_config (register (Some raw)) in
  (raw_serverUrl raw = None -> serverUrl config = serverUrl DEFAULT_CONFIG)
  /\ (raw_apiKey raw = None -> apiKey config = None)
  /\ (raw_maxRecallResults raw = None ->
      maxRecallResults config = maxRecallResults DEFAULT_CONFIG)
  /\ (raw_maxRecallTokens raw = None ->
      maxRecallTokens config = maxRecallTokens DEFAULT_CONFIG).
Proof. simpl. repeat split; intros E; rewrite E; reflexivity. Qed.

(* ================================================================== *)
(** ** The client *)

(** C9. Each public method of the client performs one fetch and no other.
    Its URL is a base followed by a path that starts with /v1, where the
    base is the configured server URL with its trailing slashes stripped:
    the server URL is the base followed by slashes only, and the base does
    not end in a slash (it is what the constructor computes).  The request
    has the X-Maasv-Key header exactly when the configured [apiKey] is a
    non-empty string, with that string as its value. *)
Theorem client_single_round_trip :
  forall (config : PluginConfig) (T : Type) (call : ClientCall T),
  exists (base : string) (n : nat) (path : string) (init : RequestInit)
         (k : FetchOutcome T -> Prog T),
    serverUrl config = base ++ slashes n
    /\ (forall t, base <> t ++ "/")
    /\ base = strip_trailing_slashes (serverUrl config)
    /\ invoke (new_MaasvClient config) call = Fetch T (base ++ path) init k
    /\ prefix "/v1" path = true
    /\ (forall o, no_fetch (k o))
    /\ lookup_header "X-Maasv-Key" (init_headers init)
       = if truthy (apiKey config) then apiKey config else None.
Proof.
  intros config T call.
  assert (Hkey : lookup_header "X-Maasv-Key" (headers (new_MaasvClient config))
                 = if truthy (apiKey config) then apiKey config else None).
  { unfold new_MaasvClient. simpl.
    destruct (apiKey config) as [key|]; simpl; [|reflexivity].
    destruct (key =? ""); reflexivity. }
  destruct (strip_trailing_slashes_spec (serverUrl config)) as (n & Hs & Hno).
  exists (strip_trailing_slashes (serverUrl config)), n.
  destruct call; simpl; unfold request; cbv zeta;
    (eexists _, _, _; split; [exact Hs|]);
    (split; [exact Hno|]);
    (split; [reflexivity|]);
    (split; [reflexivity|]);
    (split; [reflexivity|]);
    (split; [intros o; apply no_fetch_handle_response | exact Hkey]).
Qed.

(** For a server URL given with a trailing slash and an apiKey, the health
    request goes to the URL without that slash and carries the key. *)
Lemma client_single_round_trip_witness :
  serverUrl (reg_config (register (Some sample_raw_config)))
  = "http://10.0.0.5:9000/"
  /\ first_request
       (invoke (new_MaasvClient (reg_config (register (Some sample_raw_config))))
          CallHealth)
     = Some ("http://10.0.0.5:9000/v1/health",
             {| init_method := "GET";
                init_headers := [("Content-Type", "application/json");
                                 ("X-Maasv-Key", "secret")];
                init_body := None |}).
Proof.
  split; [reflexivity|].
  destruct (client_single_round_trip
              (reg_config (register (Some sample_raw_config))) _ CallHealth)
    as (base & n & path & init & k & _ & _ & Hbase & E & _).
  rewrite E. cbn [first_request].
  assert (Hsent : first_request
                    (invoke (new_MaasvClient
                               (reg_config (register (Some sample_raw_config))))
                       CallHealth)
                  = Some (base ++ path, init)) by (rewrite E; reflexivity).
  rewrite <- Hsent. reflexivity.
Defined.

(* ================================================================== *)
(** ** The tools *)

Ltac falsy :=
  repeat match goal with
         | H : _ = None |- _ => rewrite H
         | H : _ \/ _ |- _ => destruct H
         | H : _ /\ _ |- _ => destruct H
         end;
  simpl; rewrite ?orb_true_r; simpl.

(** C5. When a parameter that the action requires is missing, [execute] of
    memory_graph and of memory_wisdom returns at once a text that starts
    with "Error:": it is a plain return, so nothing is thrown and no request
    is sent. *)
Theorem missing_parameter_is_reported :
  forall (String_of_number : number -> string) (client : MaasvClient),
    (forall params,
        graph_missing_required params ->
        exists r, memory_graph_execute String_of_number client params = Ret r
                  /\ error_result r)
    /\ (forall params,
        wisdom_missing_required params ->
        exists r, memory_wisdom_execute String_of_number client params = Ret r
                  /\ error_result r).
Proof.
  intros S client. split; intros params Hmiss.
  - unfold graph_missing_required in Hmiss. unfold memory_graph_execute.
    destruct (mgp_action params); falsy;
      try (eexists; split; [reflexivity|eexists; split; reflexivity]).
    destruct (negb (truthy (mgp_subject_id params)) || negb (truthy (mgp_predicate params)));
      eexists; split; try reflexivity; eexists; split; reflexivity.
  - unfold wisdom_missing_required in Hmiss. unfold memory_wisdom_execute.
    destruct (mwp_action params); falsy;
      try (eexists; split; [reflexivity|eexists; split; reflexivity]).
Qed.

Lemma missing_parameter_is_reported_witness :
  graph_missing_required profile_without_entity
  /\ wisdom_missing_required (feedback_params (Some "wis_1") None)
  /\ (exists r,
         memory_graph_execute sample_number_printer sample_client
           profile_without_entity = Ret r
         /\ error_result r)
  /\ (exists r,
         memory_wisdom_execute sample_number_printer sample_client
           (feedback_params (Some "wis_1") None) = Ret r
         /\ error_result r).
Proof.
  destruct (missing_parameter_is_reported sample_number_printer sample_client)
    as [Hgraph Hwisdom].
  assert (Hg : graph_missing_required profile_without_entity) by reflexivity.
  assert (Hw : wisdom_missing_required (feedback_params (Some "wis_1") None))
    by (right; reflexivity).
  split; [exact Hg|]. split; [exact Hw|]. split.
  - apply Hgraph. exact Hg.
  - apply Hwisdom. exact Hw.
Defined.

(** C7. The feedback action, given a wisdom_id (a non-empty string, which is
    what the guard of the action asks) and a score, sends the feedback
    request as the first and only thing it does: no other request, and no
    look at a recorded outcome, comes before it. *)
Theorem feedback_is_unconditional :
  forall (String_of_number : number -> string) (client : MaasvClient)
         (params : MemoryWisdomParams) (id : string) (score : number),
    mwp_action params = WisdomFeedback ->
    mwp_wisdom_id params = Some id ->
    id <> "" ->
    mwp_score params = Some score ->
    exists k,
      memory_wisdom_execute String_of_number client params
      = Fetch UpdatedReply
          (baseUrl client ++ "/v1/wisdom/" ++ id ++ "/feedback")
          {| init_method := "POST";
             init_headers := headers client;
             init_body :=
               Some (JObj ([("score", JNum score)]
                           ++ prop "notes" JStr (mwp_notes params))%list) |}
          k
      /\ (forall o, no_fetch (k o))
      /\ (forall o reply,
             handle_response "POST" ("/v1/wisdom/" ++ id ++ "/feedback") o
             = Ret reply ->
             k o = Ret (text_content ("Added feedback for " ++ id ++ ": "
                                      ++ String_of_number score ++ "/5"))).
Proof.
  intros S client params id score Hact Hid Hne Hscore.
  unfold memory_wisdom_execute. rewrite Hact, Hid, Hscore. simpl.
  apply String.eqb_neq in Hne. rewrite Hne. simpl.
  eexists. split; [reflexivity|]. split.
  - intros o. apply no_fetch_bind; [apply no_fetch_handle_response|].
    intros _. exact I.
  - intros o reply E. rewrite E. reflexivity.
Qed.

Lemma feedback_is_unconditional_witness :
  "wis_1" <> ""
  /\ first_request
       (memory_wisdom_execute sample_number_printer sample_client
          (feedback_params (Some "wis_1") (Some 4)))
     = Some ("http://127.0.0.1:18790/v1/wisdom/wis_1/feedback",
             {| init_method := "POST";
                init_headers := [("Content-Type", "application/json")];
                init_body := Some (JObj [("score", JNum 4)]) |}).
Proof.
  assert (Hne : "wis_1" <> "") by discriminate.
  split; [exact Hne|].
  destruct (feedback_is_unconditional sample_number_printer sample_client
              (feedback_params (Some "wis_1") (Some 4)) "wis_1" 4
              eq_refl eq_refl Hne eq_refl) as (k & E & _).
  rewrite E. reflexivity.
Defined.

(** C2 (what the code does). [execute] of memory_store and of memory_search
    awaits the client call outside any try block: when the call throws, the
    same exception leaves [execute]; with the server unreachable the call to
    memory_store below ends in "fetch failed" instead of a tool response. *)
Theorem store_and_search_propagate_failure :
  forall (String_of_number : number -> string) (toFixed : number -> nat -> string)
         (client : MaasvClient),
    (forall params,
        propagates_failure "POST" "/v1/memory/store"
          (memory_store_execute client params))
    /\ (forall params,
        propagates_failure "POST" "/v1/memory/search"
          (memory_search_execute String_of_number toFixed client params))
    /\ may_throw
         (memory_store_execute client
            {| mst_content := "likes coffee";
               mst_category := "preference";
               mst_subject := None;
               mst_confidence := None |})
         "fetch failed".
Proof.
  intros S F client. split; [|split].
  - intros params o m E. simpl. rewrite E. reflexivity.
  - intros params o m E. simpl. rewrite E. reflexivity.
  - simpl. exists (Rejected "fetch failed"). reflexivity.
Qed.

(** When the store request succeeds, the tool reports the memory ID of the
    reply, whatever it is: the plugin adds no identity of its own. *)
Lemma memory_store_reports_server_id
    (client : MaasvClient) (params : MemoryStoreParams) (reply : MemoryIdReply) :
  may_return (memory_store_execute client params)
    (text_content ("Stored memory: " ++ memory_id reply)).
Proof.
  exists (Resolved {| ok := true; status := 200; text_result := None;
                      json_result := inr reply |}).
  reflexivity.
Qed.

(** The sibling tool memory_forget does catch: whatever the request yields,
    [execute] returns a text. *)
Lemma memory_forget_catches (client : MaasvClient) (params : MemoryForgetParams) :
  catches_failure (memory_forget_execute client params)
  /\ no_throw (memory_forget_execute client params).
Proof.
  split.
  - simpl. intros [m|r]; simpl; [eauto|].
    destruct (ok r); simpl; [destruct (json_result r)|]; simpl; eauto.
  - apply no_throw_try_catch. intros m. exact I.
Qed.

(** Memory-graph and memory-wisdom propagate in the same way once the
    parameters of the action are there. *)
Lemma graph_profile_propagates_failure
    (String_of_number : number -> string) (client : MaasvClient)
    (params : MemoryGraphParams) (id : string) :
  mgp_action params = GraphProfile ->
  mgp_entity_id params = Some id -> id <> "" ->
  propagates_failure "GET" ("/v1/graph/entities/" ++ id)
    (memory_graph_execute String_of_number client params).
Proof.
  intros Hact Hid Hne. unfold memory_graph_execute. rewrite Hact, Hid. simpl.
  apply String.eqb_neq in Hne. rewrite Hne. simpl.
  intros o m E. rewrite E. reflexivity.
Qed.

Lemma wisdom_feedback_propagates_failure
    (String_of_number : number -> string) (client : MaasvClient)
    (params : MemoryWisdomParams) (id : string) (score : number) :
  mwp_action params = WisdomFeedback ->
  mwp_wisdom_id params = Some id -> id <> "" ->
  mwp_score params = Some score ->
  propagates_failure "POST" ("/v1/wisdom/" ++ id ++ "/feedback")
    (memory_wisdom_execute String_of_number client params).
Proof.
  intros Hact Hid Hne Hscore. unfold memory_wisdom_execute.
  rewrite Hact, Hid, Hscore. simpl.
  apply String.eqb_neq in Hne. rewrite Hne. simpl.
  intros o m E. rewrite E. reflexivity.
Qed.

(* ================================================================== *)
(** ** The hooks *)

Lemma extractUserMessage_pure (event : AgentEvent) :
  (exists r, extractUserMessage event = Ret r)
  \/ (exists m, extractUserMessage event = Throw m).
Proof.
  unfold extractUserMessage.
  destruct (userMessage event); [eauto|].
  destruct (messages event) as [ms|]; [|eauto].
  destruct (find _ (rev ms)) as [m|]; [|eauto].
  destruct (msg_content m) as [s|[s| |e]]; simpl; eauto.
Qed.

Lemma conversation_parts_pure (ms : list Message) :
  (exists r, conversation_parts ms = Ret r)
  \/ (exists m, conversation_parts ms = Throw m).
Proof.
  induction ms as [|msg rest IH]; simpl; [eauto|].
  destruct ((role msg =? "user") || (role msg =? "assistant")); [|exact IH].
  destruct (msg_content msg) as [s|[s| |e]]; simpl; eauto;
    destruct IH as [[r ->]|[m ->]]; simpl; eauto.
Qed.

Lemma extractConversation_pure (event : AgentEvent) :
  (exists r, extractConversation event = Ret r)
  \/ (exists m, extractConversation event = Throw m).
Proof.
  unfold extractConversation. destruct (messages event) as [ms|]; [|eauto].
  destruct (conversation_parts_pure ms) as [[r ->]|[m ->]]; simpl; eauto.
  destruct (0 <? List.length r)%nat; eauto.
Qed.

(** C6. Both hooks swallow the failure of their client call: the error is
    logged as a warning and the hook returns without a result, so no
    exception of the call leaves the hook. *)
Theorem hooks_swallow_client_failure :
  forall (config : PluginConfig) (client : MaasvClient) (event : AgentEvent),
    swallows "POST" "/v1/memory/context" "Auto-recall failed: " None
      (before_agent_start config client event)
    /\ swallows "POST" "/v1/extract" "Auto-capture failed: " tt
         (agent_end config client event)
    /\ no_throw (agent_end config client event).
Proof.
  intros config client event. split; [|split].
  - unfold before_agent_start.
    destruct (autoRecall config); simpl; [|exact I].
    destruct (extractUserMessage_pure event) as [[r ->]|[m ->]]; simpl; [|exact I].
    destruct (truthy r); simpl; [|exact I].
    split.
    + intros o m E. rewrite E. reflexivity.
    + intros o. apply no_throw_try_catch. intros m. exact I.
  - unfold agent_end.
    destruct (autoCapture config); simpl; [|exact I].
    destruct (extractConversation_pure event) as [[r ->]|[m ->]]; simpl; [|exact I].
    destruct (negb (truthy r) || (String.length (nullish r "") <? 50)%nat);
      simpl; [exact I|].
    split.
    + intros o m E. rewrite E. reflexivity.
    + intros o. apply no_throw_try_catch. intros m. exact I.
  - unfold agent_end. destruct (autoCapture config); simpl; [|exact I].
    apply no_throw_try_catch. intros m. exact I.
Qed.

(** With the server unreachable the auto-recall hook logs the error and
    returns nothing. *)
Example auto_recall_outage :
  match before_agent_start DEFAULT_CONFIG sample_client
          {| userMessage := Some "what do I like?"; messages := None |} with
  | Fetch _ url _ k =>
      url = "http://127.0.0.1:18790/v1/memory/context"
      /\ k (Rejected "fetch failed")
         = Log LogWarn "Auto-recall failed: fetch failed" (Ret None)
  | _ => False
  end.
Proof. split; reflexivity. Qed.

Lemma conversation_parts_none (ms : list Message) :
  (forall m, In m ms -> role m <> "user" /\ role m <> "assistant") ->
  conversation_parts ms = Ret [].
Proof.
  induction ms as [|msg rest IH]; simpl; intros H; [reflexivity|].
  destruct (H msg (or_introl eq_refl)) as [Hu Ha].
  apply String.eqb_neq in Hu, Ha. rewrite Hu, Ha. simpl.
  apply IH. intros m Hm. apply H. now right.
Qed.

(** C10. The agent_end hook sends nothing when autoCapture is off, when the
    event has no user or assistant message, and when the conversation text
    has fewer than 50 characters; and whenever it does send a request, that
    request is the extract request for the conversation text, which then has
    at least 50 characters (and such a text is sent). *)
Theorem agent_end_capture_threshold :
  forall (config : PluginConfig) (client : MaasvClient) (event : AgentEvent),
    (autoCapture config = false -> no_fetch (agent_end config client event))
    /\ (no_conversation event -> no_fetch (agent_end config client event))
    /\ (forall text,
           extractConversation event = Ret (Some text) ->
           (String.length text < 50)%nat ->
           no_fetch (agent_end config client event))
    /\ (forall sent,
           first_request (agent_end config client event) = Some sent ->
           exists text,
             extractConversation event = Ret (Some text)
             /\ (50 <= String.length text)%nat
             /\ sent = extract_request client text)
    /\ (forall text,
           autoCapture config = true ->
           extractConversation event = Ret (Some text) ->
           (50 <= String.length text)%nat ->
           first_request (agent_end config client event)
           = Some (extract_request client text)).
Proof.
  intros config client event. unfold agent_end.
  split; [|split; [|split; [|split]]].
  - intros ->. exact I.
  - intros Hno. destruct (autoCapture config); simpl; [|exact I].
    unfold no_conversation in Hno. unfold extractConversation.
    destruct (messages event) as [ms|]; simpl; [|exact I].
    rewrite (conversation_parts_none ms Hno). exact I.
  - intros text E Hlt. destruct (autoCapture config); simpl; [|exact I].
    rewrite E. simpl. apply Nat.ltb_lt in Hlt. rewrite Hlt, orb_true_r. exact I.
  - intros sent. destruct (autoCapture config); simpl; [|discriminate].
    destruct (extractConversation_pure event) as [[r E]|[m E]]; rewrite E; simpl;
      [|discriminate].
    destruct r as [text|]; simpl; [|discriminate].
    destruct (text =? ""); simpl; [discriminate|].
    destruct (String.length text <? 50)%nat eqn:Hlen; simpl; [discriminate|].
    intros [= <-]. exists text. apply Nat.ltb_ge in Hlen. auto.
  - intros text -> E Hge. simpl. rewrite E. simpl.
    destruct (text =? "") eqn:Hempty.
    + apply String.eqb_eq in Hempty. subst. simpl in Hge. lia.
    + simpl. apply Nat.ltb_ge in Hge. rewrite Hge. reflexivity.
Qed.

Lemma agent_end_capture_threshold_witness :
  extractConversation short_conversation = Ret (Some "user: hi")
  /\ no_fetch (agent_end DEFAULT_CONFIG sample_client short_conversation)
  /\ first_request (agent_end DEFAULT_CONFIG sample_client long_conversation)
     = Some (extract_request sample_client
               ("user: I moved to Lisbon last month." ++ LF ++ LF
                ++ "assistant: Noted, Lisbon it is.")).
Proof.
  split; [reflexivity|]. split.
  - destruct (agent_end_capture_threshold DEFAULT_CONFIG sample_client
                short_conversation) as (_ & _ & H & _).
    apply (H "user: hi"); [reflexivity | simpl; lia].
  - destruct (agent_end_capture_threshold DEFAULT_CONFIG sample_client
                long_conversation) as (_ & _ & _ & _ & H).
    apply H; [reflexivity | reflexivity | simpl; lia].
Defined.

Lemma number_of_nat_add (a b : nat) :
  (number_of_nat (a + b) == number_of_nat a + number_of_nat b)%Q.
Proof.
  unfold number_of_nat. rewrite Nat2Z.inj_add, inject_Z_plus. reflexivity.
Qed.

Lemma number_of_nat_nonneg (a : nat) : (0 <= number_of_nat a)%Q.
Proof.
  unfold number_of_nat. change 0%Q with (inject_Z 0). rewrite <- Zle_Qle. lia.
Qed.

(** C1 (amended). With a budget of N >= 0 tokens the blob that the
    auto-recall hook emits between its tags has at most 4 * N characters
    plus the length of the truncation marker. *)
Theorem recall_blob_bounded :
  forall config : PluginConfig,
    (0 <= maxRecallTokens config)%Q -> recall_bound config.
Proof.
  intros config HN client event result.
  assert (Hmax : (0 <= maxRecallTokens config * 4)%Q).
  { apply Qmult_le_0_compat; [exact HN | discriminate]. }
  unfold before_agent_start.
  destruct (autoRecall config); simpl; [|discriminate].
  destruct (extractUserMessage_pure event) as [[r ->]|[m ->]]; simpl; [|tauto].
  destruct (truthy r); simpl; [|discriminate].
  intros [[m|resp] Hret]; simpl in Hret; [discriminate|].
  destruct (ok resp); simpl in Hret; [|discriminate].
  destruct (json_result resp) as [m|reply]; simpl in Hret; [discriminate|].
  destruct (negb (context reply =? "") && (0 <? String.length (context reply))%nat);
    simpl in Hret; [|discriminate].
  injection Hret as <-. simpl.
  eexists. split; [reflexivity|].
  destruct (Qgtb (number_of_nat (String.length (context reply)))
                 (maxRecallTokens config * 4)) eqn:Hcut.
  - change (LF ++ "[truncated]") with truncation_marker.
    rewrite length_append, number_of_nat_add.
    apply Qplus_le_compat; [|apply Qle_refl].
    rewrite (Qmult_comm 4). apply slice_length_le. exact Hmax.
  - apply Qgtb_false in Hcut. rewrite (Qmult_comm 4).
    rewrite <- (Qplus_0_r (number_of_nat _)).
    apply Qplus_le_compat; [exact Hcut | apply number_of_nat_nonneg].
Qed.

Lemma recall_blob_bounded_witness :
  (0 <= maxRecallTokens DEFAULT_CONFIG)%Q /\ recall_bound DEFAULT_CONFIG.
Proof.
  split; [discriminate | apply recall_blob_bounded; discriminate].
Defined.

(** C1 (as stated) fails for a negative budget: with maxRecallTokens = -1 and
    the context "hello world", [slice(0, -4)] keeps "hello w" and the hook
    emits 19 characters between the tags, more than 4 * (-1) + 12. *)
Lemma recall_bound_fails_for_negative_budget :
  ~ recall_bound (reg_config (register (Some negative_budget))).
Proof.
  intros Hbound.
  destruct (Hbound (reg_client (register (Some negative_budget)))
              {| userMessage := Some "hi"; messages := None |}
              {| prependContext :=
                   long_term_memory ("hello w" ++ truncation_marker) |})
    as (blob & Hblob & Hlen).
  - exists (Resolved {| ok := true; status := 200; text_result := None;
                        json_result := inr {| context := "hello world" |} |}).
    reflexivity.
  - simpl in Hblob. apply (f_equal String.length) in Hblob.
    unfold long_term_memory in Hblob.
    rewrite !length_append in Hblob. simpl in Hblob.
    assert (E : String.length blob = 19%nat) by lia.
    rewrite E in Hlen. vm_compute in Hlen. apply Hlen. reflexivity.
Qed.

(** With the default budget of 2000 tokens a short context goes through
    whole; with a budget of 2 tokens a context of ten characters is cut to
    eight and marked. *)
Example recall_truncates_example :
  may_return
    (before_agent_start
       (spread DEFAULT_CONFIG
          {| raw_serverUrl := None; raw_apiKey := None; raw_autoRecall := None;
             raw_autoCapture := None; raw_maxRecallResults := None;
             raw_maxRecallTokens := Some 2; raw_enableGraph := None;
             raw_enableWisdom := None |})
       (new_MaasvClient DEFAULT_CONFIG)
       {| userMessage := Some "what do I like?"; messages := None |})
    (Some {| prependContext :=
               long_term_memory ("01234567" ++ LF ++ "[truncated]") |}).
Proof.
  exists (Resolved {| ok := true; status := 200; text_result := None;
                      json_result := inr {| context := "0123456789" |} |}).
  reflexivity.
Qed.

(* ================================================================== *)
(** ** The service model: deduplication on store *)

Lemma find_app_none {A} (f : A -> bool) (l : list A) (x : A) :
  find f l = None -> find f (l ++ [x]) = if f x then Some x else None.
Proof.
  induction l as [|a l IH]; simpl; [reflexivity|].
  destruct (f a); [discriminate | exact IH].
Qed.

Lemma Qltb_lt (a b : number) : Service.Qltb a b = true <-> (a < b)%Q.
Proof.
  unfold Service.Qltb. rewrite negb_true_iff. split.
  - intros H. apply Qnot_le_lt. intros Hle.
    apply Qle_bool_iff in Hle. congruence.
  - intros H. destruct (Qle_bool b a) eqn:E; [|reflexivity].
    apply Qle_bool_iff in E. exfalso. exact (Qlt_not_le _ _ H E).
Qed.

Section DedupFacts.

Variable embedding : Type.
Variable embed : string -> embedding.
Variable distance : embedding -> embedding -> number.
Variable threshold : number.
Variable new_id : list Memory -> string.

(** C3. Storing the same content twice in a row, the content being within
    the near-duplicate threshold of itself, returns the same memory ID both
    times and the second call leaves the memories as the first left them;
    and a content that is a near-duplicate of no existing memory is inserted
    as a new memory with access_count = 0, whose ID is returned. *)
Theorem store_is_idempotent :
  forall (memories : list Memory) (req : StoreRequest) (t1 t2 : string),
    let first :=
      Service.store embedding embed distance threshold new_id t1 req memories in
    let second :=
      Service.store embedding embed distance threshold new_id t2 req
        (snd first) in
    ((distance (embed (sr_content req)) (embed (sr_content req)) < threshold)%Q ->
     fst second = fst first /\ snd second = snd first)
    /\ ((forall m, In m memories ->
                   ~ (distance (embed (mem_content m)) (embed (sr_content req))
                      < threshold)%Q) ->
        exists inserted,
          snd first = (memories ++ [inserted])%list
          /\ fst first = mem_id inserted
          /\ mem_content inserted = sr_content req
          /\ mem_access_count inserted = 0).
Proof.
  intros memories req t1 t2. cbv zeta. unfold Service.store.
  destruct (find (Service.near_duplicate embedding embed distance threshold
                    (sr_content req)) memories) as [m|] eqn:Hfind.
  - simpl. rewrite Hfind. simpl. split; [split; reflexivity|].
    intros Hnone. exfalso.
    destruct (find_some _ _ Hfind) as [Hin Hm].
    apply (Hnone m Hin). apply Qltb_lt. exact Hm.
  - simpl. split.
    + intros Hself. rewrite (find_app_none _ _ _ Hfind).
      match goal with
      | |- context [if ?b then _ else _] =>
          assert (Hnear : b = true) by (apply Qltb_lt; exact Hself)
      end.
      rewrite Hnear. simpl. split; reflexivity.
    + intros _. eexists. repeat split.
Qed.

End DedupFacts.

Lemma store_is_idempotent_witness :
  (discrete_distance "likes coffee" "likes coffee" < 1 # 20)%Q
  /\ fst (example_store "t2" likes_coffee (snd (example_store "t1" likes_coffee [])))
     = "mem_0"
  /\ snd (example_store "t2" likes_coffee (snd (example_store "t1" likes_coffee [])))
     = snd (example_store "t1" likes_coffee [])
  /\ exists inserted,
       snd (example_store "t1" likes_coffee []) = [inserted]
       /\ mem_access_count inserted = 0.
Proof.
  split; [reflexivity|].
  pose proof (store_is_idempotent string (fun s => s) discrete_distance (1 # 20)
                (fun ms => "mem_" ++ string_of_Z (Z.of_nat (List.length ms)))
                [] likes_coffee "t1" "t2") as H.
  cbv zeta in H. destruct H as (Hsame & Hnew).
  destruct (Hsame eq_refl) as (H1 & H2).
  destruct Hnew as (inserted & E & _ & _ & Hcount); [intros m []|].
  split; [exact H1|]. split; [exact H2|].
  exists inserted. split; assumption.
Defined.

(* ================================================================== *)
(** ** The service model: temporal versioning of relationships *)

Lemma Object_eqb_spec (a b : Service.Object) :
  reflect (a = b) (Service.Object_eqb a b).
Proof.
  destruct a as [x|x], b as [y|y]; simpl;
    try (constructor; discriminate);
    destruct (String.eqb_spec x y); constructor; congruence.
Qed.

Lemma find_head_filter {A} (f : A -> bool) (l : list A) :
  find f l = hd_error (filter f l).
Proof.
  induction l as [|a l IH]; simpl; [reflexivity|].
  destruct (f a); [reflexivity | exact IH].
Qed.

Lemma filter_length_le_1 {A} (f : A -> bool) (l : list A) (x : A) :
  (List.length (filter f l) <= 1)%nat -> find f l = Some x -> filter f l = [x].
Proof.
  rewrite find_head_filter.
  destruct (filter f l) as [|a [|b rest]]; simpl; intros H E;
    [discriminate | congruence | lia].
Qed.

Lemma close_id now old r : Service.r_id (Service.close now old r) = Service.r_id r.
Proof. unfold Service.close. destruct (_ =? _)%nat; reflexivity. Qed.

Lemma valid_about_close now old s p r :
  Service.valid_about s p (Service.close now old r) = true ->
  Service.valid_about s p r = true /\ Service.r_id r <> old.
Proof.
  unfold Service.close. destruct (Nat.eqb_spec (Service.r_id r) old).
  - unfold Service.valid_about, Service.currently_valid. simpl. discriminate.
  - auto.
Qed.

Lemma filter_close_length now old s p (l : list Service.Relationship) :
  (List.length (filter (Service.valid_about s p) (map (Service.close now old) l))
   <= List.length (filter (Service.valid_about s p) l))%nat.
Proof.
  induction l as [|r l IH]; simpl; [lia|].
  destruct (Service.valid_about s p (Service.close now old r)) eqn:E.
  - apply valid_about_close in E. destruct E as [-> _]. simpl. lia.
  - destruct (Service.valid_about s p r); simpl; lia.
Qed.

(** Closing the only currently valid relationship of (s, p) leaves none. *)
Lemma filter_close_old now s p (l : list Service.Relationship) old :
  filter (Service.valid_about s p) l = [old] ->
  filter (Service.valid_about s p)
    (map (Service.close now (Service.r_id old)) l) = [].
Proof.
  revert old. induction l as [|r l IH]; intros old; simpl; [reflexivity|].
  destruct (Service.valid_about s p r) eqn:Er.
  - intros [= -> Hrest].
    destruct (Service.valid_about s p (Service.close now (Service.r_id old) old)) eqn:Ec.
    + apply valid_about_close in Ec. tauto.
    + clear IH. induction l as [|r l IH]; simpl in *; [reflexivity|].
      destruct (Service.valid_about s p r) eqn:Er'; [discriminate|].
      destruct (Service.valid_about s p (Service.close now (Service.r_id old) r)) eqn:Ec'.
      * apply valid_about_close in Ec'. destruct Ec'. congruence.
      * apply IH. exact Hrest.
  - intros Hrest.
    destruct (Service.valid_about s p (Service.close now (Service.r_id old) r)) eqn:Ec.
    + apply valid_about_close in Ec. destruct Ec. congruence.
    + apply IH. exact Hrest.
Qed.

Lemma valid_about_opened s p s' p' id o t c :
  Service.valid_about s' p'
    {| Service.r_id := id; Service.r_subject_id := s; Service.r_predicate := p;
       Service.r_object := o; Service.r_valid_from := t;
       Service.r_valid_to := None; Service.r_confidence := c |}
  = (s =? s') && (p =? p').
Proof. reflexivity. Qed.

(** After add_relationship(s, p, o) the profile of s holds under p exactly
    one relationship: its object is o and its ID is the one returned. *)
Lemma add_relationship_profile now s p o c g :
  well_formed g ->
  exists r,
    Service.profile (snd (Service.add_relationship now s p o c g)) s p = [r]
    /\ Service.r_id r = fst (Service.add_relationship now s p o c g)
    /\ Service.r_object r = o
    /\ Service.r_subject_id r = s /\ Service.r_predicate r = p
    /\ Service.r_valid_to r = None.
Proof.
  intros [Hids Hone]. unfold Service.add_relationship, Service.profile.
  destruct (find (Service.valid_about s p) (Service.rels g)) as [old|] eqn:Hfind.
  - pose proof (filter_length_le_1 _ _ _ (Hone s p) Hfind) as Hold.
    destruct (find_some _ _ Hfind) as [_ Hv].
    unfold Service.valid_about in Hv.
    apply andb_true_iff in Hv. destruct Hv as [Hv Hp].
    apply andb_true_iff in Hv. destruct Hv as [Hv Hs].
    apply String.eqb_eq in Hp, Hs.
    destruct (Object_eqb_spec (Service.r_object old) o) as [Ho|Ho].
    + exists old. simpl. unfold Service.profile in Hold. rewrite Hold.
      unfold Service.currently_valid in Hv.
      destruct (Service.r_valid_to old); [discriminate|].
      repeat split; assumption.
    + eexists. simpl. rewrite filter_app.
      unfold Service.profile in Hold. rewrite (filter_close_old _ _ _ _ _ Hold).
      simpl. rewrite valid_about_opened, !String.eqb_refl. simpl.
      repeat split.
  - eexists. simpl. rewrite filter_app.
    rewrite find_head_filter in Hfind.
    destruct (filter (Service.valid_about s p) (Service.rels g)); [|discriminate].
    simpl. rewrite valid_about_opened, !String.eqb_refl. simpl.
    repeat split.
Qed.

Lemma add_relationship_well_formed now s p o c g :
  well_formed g -> well_formed (snd (Service.add_relationship now s p o c g)).
Proof.
  intros Hwf. pose proof Hwf as [Hids Hone].
  split.
  - unfold Service.add_relationship.
    destruct (find (Service.valid_about s p) (Service.rels g)) as [old|].
    + destruct (Service.Object_eqb (Service.r_object old) o);
        cbn [snd Service.rels Service.next_id]; [exact Hids|].
      rewrite map_app, map_map, seq_S.
      rewrite (map_ext _ Service.r_id) by (intros; apply close_id).
      rewrite Hids. reflexivity.
    + cbn [snd Service.rels Service.next_id].
      rewrite map_app, seq_S, Hids. reflexivity.
  - intros s' p'.
    destruct (String.eqb_spec s s') as [<-|Hs].
    + destruct (String.eqb_spec p p') as [<-|Hp].
      * destruct (add_relationship_profile now s p o c g Hwf) as (r & -> & _).
        simpl. lia.
      * unfold Service.add_relationship, Service.profile.
        destruct (find (Service.valid_about s p) (Service.rels g)) as [old|].
        -- destruct (Service.Object_eqb (Service.r_object old) o); simpl;
             [apply Hone|].
           rewrite filter_app, length_app. simpl.
           rewrite valid_about_opened.
           apply String.eqb_neq in Hp. rewrite Hp, andb_false_r. simpl.
           pose proof (filter_close_length now (Service.r_id old) s p' (Service.rels g)).
           specialize (Hone s p'). unfold Service.profile in Hone. lia.
        -- simpl. rewrite filter_app, length_app. simpl.
           rewrite valid_about_opened.
           apply String.eqb_neq in Hp. rewrite Hp, andb_false_r. simpl.
           specialize (Hone s p'). unfold Service.profile in Hone. lia.
    + unfold Service.add_relationship, Service.profile.
      apply String.eqb_neq in Hs.
      destruct (find (Service.valid_about s p) (Service.rels g)) as [old|].
      * destruct (Service.Object_eqb (Service.r_object old) o); simpl;
          [apply Hone|].
        rewrite filter_app, length_app. simpl.
        rewrite valid_about_opened, Hs. simpl.
        pose proof (filter_close_length now (Service.r_id old) s' p' (Service.rels g)).
        specialize (Hone s' p'). unfold Service.profile in Hone. lia.
      * simpl. rewrite filter_app, length_app. simpl.
        rewrite valid_about_opened, Hs. simpl.
        specialize (Hone s' p'). unfold Service.profile in Hone. lia.
Qed.

Lemma reachable_well_formed g : Service.reachable g -> well_formed g.
Proof.
  induction 1 as [|now s p o c g _ IH].
  - split; [reflexivity|]. intros s p. simpl. lia.
  - apply add_relationship_well_formed. exact IH.
Qed.

Lemma filter_length_weaken {A} (f h : A -> bool) (l : list A) :
  (List.length (filter (fun x => f x && h x) l) <= List.length (filter f l))%nat.
Proof.
  induction l as [|a l IH]; simpl; [lia|].
  destruct (f a); simpl; [destruct (h a); simpl; lia | exact IH].
Qed.

Lemma well_formed_at_most_one_valid g :
  well_formed g -> Service.at_most_one_valid g.
Proof.
  intros [_ Hone] s p o.
  eapply Nat.le_trans; [apply filter_length_weaken | apply (Hone s p)].
Qed.

(** C4. In a graph that the service has reached, add_relationship(A, p, X)
    followed by add_relationship(A, p, Y) with Y different from X leaves the
    first relationship closed (its valid_to is the time of the second call)
    and opens a new one, which is the only relationship that profile(A)
    shows under p, with object Y; and no (subject, predicate, object) has
    more than one currently valid relationship. *)
Theorem relationship_is_superseded :
  forall (g : Service.Graph) (A p : string) (X Y : Service.Object)
         (c1 c2 : number) (t1 t2 : nat),
    Service.reachable g ->
    X <> Y ->
    let first := Service.add_relationship t1 A p X c1 g in
    let second := Service.add_relationship t2 A p Y c2 (snd first) in
    (exists r1,
        In r1 (Service.rels (snd first))
        /\ Service.r_id r1 = fst first
        /\ Service.r_object r1 = X
        /\ Service.r_valid_to r1 = None
        /\ In (Service.close t2 (fst first) r1) (Service.rels (snd second))
        /\ Service.r_valid_to (Service.close t2 (fst first) r1) = Some t2)
    /\ fst second <> fst first
    /\ Service.profile (snd second) A p
       = [ {| Service.r_id := fst second;
              Service.r_subject_id := A;
              Service.r_predicate := p;
              Service.r_object := Y;
              Service.r_valid_from := t2;
              Service.r_valid_to := None;
              Service.r_confidence := c2 |} ]
    /\ Service.at_most_one_valid (snd first)
    /\ Service.at_most_one_valid (snd second).
Proof.
  intros g A p X Y c1 c2 t1 t2 Hreach Hneq. cbv zeta.
  pose proof (reachable_well_formed _ Hreach) as Hwf.
  pose proof (add_relationship_well_formed t1 A p X c1 g Hwf) as Hwf1.
  pose proof (add_relationship_well_formed t2 A p Y c2 _ Hwf1) as Hwf2.
  destruct (add_relationship_profile t1 A p X c1 g Hwf)
    as (r1 & Hprof & Hid & Hobj & Hsub & Hpred & Hvalid).
  set (g1 := snd (Service.add_relationship t1 A p X c1 g)) in *.
  set (id1 := fst (Service.add_relationship t1 A p X c1 g)) in *.
  assert (Hin : In r1 (Service.rels g1)).
  { assert (H : In r1 (Service.profile g1 A p)) by (rewrite Hprof; now left).
    apply filter_In in H. tauto. }
  assert (Hlt : (id1 < Service.next_id g1)%nat).
  { destruct Hwf1 as [Hids _]. rewrite <- Hid.
    assert (H : In (Service.r_id r1) (map Service.r_id (Service.rels g1)))
      by (apply in_map; exact Hin).
    rewrite Hids in H. apply in_seq in H. lia. }
  assert (Hfind : find (Service.valid_about A p) (Service.rels g1) = Some r1).
  { rewrite find_head_filter. unfold Service.profile in Hprof.
    rewrite Hprof. reflexivity. }
  assert (Hdiff : Service.Object_eqb (Service.r_object r1) Y = false).
  { destruct (Object_eqb_spec (Service.r_object r1) Y); congruence. }
  assert (Hclose : Service.r_valid_to (Service.close t2 id1 r1) = Some t2).
  { unfold Service.close. rewrite Hid, Nat.eqb_refl. reflexivity. }
  unfold Service.add_relationship.
  unfold Service.add_relationship in Hwf2.
  rewrite Hfind, Hdiff in *. cbn [fst snd Service.rels] in *.
  split; [|split; [lia|split; [|split]]].
  - exists r1. repeat split; try assumption.
    apply in_or_app. left. rewrite Hid. apply in_map. exact Hin.
  - unfold Service.profile. cbn [Service.rels].
    rewrite filter_app. unfold Service.profile in Hprof.
    rewrite (filter_close_old _ _ _ _ _ Hprof).
    simpl. rewrite valid_about_opened, !String.eqb_refl. reflexivity.
  - apply well_formed_at_most_one_valid. exact Hwf1.
  - apply well_formed_at_most_one_valid. exact Hwf2.
Qed.

(** "at most one ... valid at a time": in every reachable graph. *)
Lemma reachable_at_most_one_valid g :
  Service.reachable g -> Service.at_most_one_valid g.
Proof.
  intros H. apply well_formed_at_most_one_valid, reachable_well_formed, H.
Qed.

Lemma relationship_is_superseded_witness :
  Service.reachable Service.empty_graph
  /\ Service.ObjectValue "ProjectX" <> Service.ObjectValue "ProjectY"
  /\ Service.profile
       (snd (Service.add_relationship 2 "ent_A" "works_on"
               (Service.ObjectValue "ProjectY") 1
               (snd (Service.add_relationship 1 "ent_A" "works_on"
                       (Service.ObjectValue "ProjectX") 1
                       Service.empty_graph))))
       "ent_A" "works_on"
     = [ {| Service.r_id := 1;
            Service.r_subject_id := "ent_A";
            Service.r_predicate := "works_on";
            Service.r_object := Service.ObjectValue "ProjectY";
            Service.r_valid_from := 2;
            Service.r_valid_to := None;
            Service.r_confidence := 1 |} ].
Proof.
  split; [constructor|]. split; [discriminate|].
  pose proof (relationship_is_superseded Service.empty_graph "ent_A" "works_on"
                (Service.ObjectValue "ProjectX") (Service.ObjectValue "ProjectY")
                1 1 1%nat 2%nat Service.reachable_empty) as H.
  cbv zeta in H.
  destruct H as (_ & _ & H & _); [discriminate|]. exact H.
Defined.

(* ================================================================== *)
(** ** More of the client *)

Lemma strip_trailing_slashes_fixed (s : string) :
  (forall t, s <> t ++ "/") -> strip_trailing_slashes s = s.
Proof.
  induction s as [|c rest IH]; intros Hno; [reflexivity|].
  simpl. destruct rest as [|d rest'].
  - simpl. destruct (Ascii.eqb_spec c "/") as [->|_]; [|reflexivity].
    exfalso. apply (Hno ""). reflexivity.
  - rewrite IH.
    + reflexivity.
    + intros t E. apply (Hno (String c t)). simpl. now rewrite E.
Qed.

Lemma strip_trailing_slashes_app_slashes (base : string) (n : nat) :
  strip_trailing_slashes (base ++ slashes n) = strip_trailing_slashes base.
Proof.
  induction base as [|c base IH]; simpl.
  - induction n as [|n IHn]; simpl; [reflexivity|]. rewrite IHn. reflexivity.
  - rewrite IH. reflexivity.
Qed.

(** The two properties name one base only: a string that does not end in a
    slash and is followed by slashes only in the server URL is what
    [strip_trailing_slashes] computes. *)
Lemma strip_trailing_slashes_unique (s base : string) (n : nat) :
  s = base ++ slashes n ->
  (forall t, base <> t ++ "/") ->
  strip_trailing_slashes s = base.
Proof.
  intros -> Hno. rewrite strip_trailing_slashes_app_slashes.
  apply strip_trailing_slashes_fixed. exact Hno.
Qed.

(** X1. The base URL of a client never ends in a slash, the configured
    server URL is the base URL followed by slashes only, a server URL that
    is already without trailing slash is kept as it is, and stripping the
    base URL again changes nothing. *)
Theorem baseUrl_is_normalised :
  forall config : PluginConfig,
    let base := baseUrl (new_MaasvClient config) in
    (forall t, base <> t ++ "/")
    /\ (exists n, serverUrl config = base ++ slashes n)
    /\ ((forall t, serverUrl config <> t ++ "/") -> base = serverUrl config)
    /\ strip_trailing_slashes base = base.
Proof.
  intros config. cbv zeta. simpl.
  destruct (strip_trailing_slashes_spec (serverUrl config)) as (n & Hs & Hno).
  split; [exact Hno|]. split; [exists n; exact Hs|]. split.
  - apply strip_trailing_slashes_fixed.
  - apply strip_trailing_slashes_fixed. exact Hno.
Qed.

Lemma baseUrl_is_normalised_witness :
  (forall t, "http://127.0.0.1:18790" <> t ++ "/")
  /\ baseUrl (new_MaasvClient DEFAULT_CONFIG) = "http://127.0.0.1:18790".
Proof.
  destruct (baseUrl_is_normalised DEFAULT_CONFIG) as (Hno & _ & Hkeep & _).
  split; [exact Hno | exact (Hkeep Hno)].
Defined.

(** X2. Once the fetch has settled, [request] returns a value exactly when
    the response is ok and its body parses, and that value is the parsed
    body; a response that is not ok always throws, with the method, the
    path, the status and the body text (nothing when the text cannot be
    read) in the message, even if the body would parse. *)
Theorem request_returns_only_ok_parsed_body :
  forall (T : Type) (method path : string),
    (forall (o : FetchOutcome T) (v : T),
        handle_response method path o = Ret v
        <-> exists r, o = Resolved r /\ ok r = true /\ json_result r = inr v)
    /\ (forall r : Response T,
           ok r = false ->
           handle_response method path (Resolved r)
           = Throw ("maasv-server " ++ method ++ " " ++ path ++ " failed: "
                    ++ string_of_Z (status r) ++ " "
                    ++ match text_result r with
                       | Some t => t
                       | None => ""
                       end))
    /\ (forall o : FetchOutcome T,
           (exists v, handle_response method path o = Ret v)
           \/ (exists m, handle_response method path o = Throw m)).
Proof.
  intros T method path. split; [|split].
  - intros o v. split.
    + destruct o as [m|r]; simpl; [discriminate|].
      destruct (ok r) eqn:Hok; simpl; [|discriminate].
      destruct (json_result r) as [m|w] eqn:Hj; [discriminate|].
      intros [= ->]. exists r. auto.
    + intros (r & -> & Hok & Hj). simpl. rewrite Hok, Hj. reflexivity.
  - intros r Hok. simpl. rewrite Hok. simpl.
    destruct (text_result r); reflexivity.
  - intros [m|r]; simpl; [eauto|].
    destruct (ok r); simpl; [destruct (json_result r)|]; eauto.
Qed.

Lemma request_returns_only_ok_parsed_body_witness :
  handle_response (T:=HealthResponse) "GET" "/v1/health"
    (Resolved {| ok := false; status := 503; text_result := Some "down";
                 json_result := inr {| health_status := healthy |} |})
  = Throw "maasv-server GET /v1/health failed: 503 down".
Proof.
  destruct (request_returns_only_ok_parsed_body HealthResponse "GET" "/v1/health")
    as (_ & H & _).
  rewrite H; reflexivity.
Defined.

(** X3. Every request of the client has the Content-Type header
    application/json; its method is GET, POST or DELETE; and it has a body
    exactly when the method is POST. *)
Theorem client_request_shape :
  forall (config : PluginConfig) (T : Type) (call : ClientCall T),
  exists url init,
    first_request (invoke (new_MaasvClient config) call) = Some (url, init)
    /\ lookup_header "Content-Type" (init_headers init) = Some "application/json"
    /\ In (init_method init) ["GET"; "POST"; "DELETE"]
    /\ (init_body init <> None <-> init_method init = "POST").
Proof.
  intros config T call.
  destruct call; simpl; eexists _, _; (split; [reflexivity|]);
    (split; [reflexivity|]); simpl;
    (split; [tauto|]); split; intros H; try reflexivity; try discriminate;
    try (exfalso; apply H; reflexivity).
Qed.

(* ================================================================== *)
(** ** More of the hooks *)

Lemma find_app {A} (f : A -> bool) (l1 l2 : list A) :
  find f (l1 ++ l2) = match find f l1 with
                      | Some x => Some x
                      | None => find f l2
                      end.
Proof.
  induction l1 as [|a l1 IH]; simpl; [reflexivity|].
  destruct (f a); [reflexivity | exact IH].
Qed.

Lemma find_none_forall {A} (f : A -> bool) (l : list A) :
  (forall x, In x l -> f x = false) -> find f l = None.
Proof.
  induction l as [|a l IH]; simpl; intros H; [reflexivity|].
  rewrite (H a (or_introl eq_refl)). apply IH. intros x Hx. apply H. now right.
Qed.

(** X4. [extractUserMessage] gives [event.userMessage] when it is a string,
    whatever the messages are; otherwise the content of the last message of
    role user (its JSON text when it is not a string); and null when there
    is no such message. *)
Theorem extractUserMessage_latest_user_message :
  forall event : AgentEvent,
    (forall s, userMessage event = Some s ->
               extractUserMessage event = Ret (Some s))
    /\ (forall before m after,
           userMessage event = None ->
           messages event = Some (before ++ m :: after)%list ->
           role m = "user" ->
           (forall x, In x after -> role x <> "user") ->
           extractUserMessage event
           = match msg_content m with
             | ContentString s => Ret (Some s)
             | ContentOther value => JSON_stringify value
             end)
    /\ (userMessage event = None ->
        match messages event with
        | Some ms => forall x, In x ms -> role x <> "user"
        | None => True
        end ->
        extractUserMessage event = Ret None).
Proof.
  intros event. unfold extractUserMessage. split; [|split].
  - intros s ->. reflexivity.
  - intros before m after -> -> Hm Hafter.
    rewrite rev_app_distr. simpl. rewrite <- app_assoc. simpl.
    rewrite find_app, find_none_forall.
    + simpl. rewrite Hm. reflexivity.
    + intros x Hx. apply in_rev in Hx. apply String.eqb_neq. auto.
  - intros ->. destruct (messages event) as [ms|]; [|reflexivity].
    intros Hno. rewrite find_none_forall; [reflexivity|].
    intros x Hx. apply in_rev in Hx. apply String.eqb_neq. auto.
Qed.

Lemma extractUserMessage_latest_user_message_witness :
  extractUserMessage
    {| userMessage := None;
       messages :=
         Some [ {| role := "user"; msg_content := ContentString "first" |};
                {| role := "user"; msg_content := ContentString "second" |};
                {| role := "assistant"; msg_content := ContentString "reply" |} ] |}
  = Ret (Some "second").
Proof.
  destruct (extractUserMessage_latest_user_message
              {| userMessage := None;
                 messages :=
                   Some [ {| role := "user"; msg_content := ContentString "first" |};
                          {| role := "user"; msg_content := ContentString "second" |};
                          {| role := "assistant";
                             msg_content := ContentString "reply" |} ] |})
    as (_ & H & _).
  apply (H [ {| role := "user"; msg_content := ContentString "first" |} ]
           {| role := "user"; msg_content := ContentString "second" |}
           [ {| role := "assistant"; msg_content := ContentString "reply" |} ]);
    try reflexivity.
  intros x [<-|[]]. discriminate.
Defined.

(** X5. The auto-recall hook returns nothing and sends nothing when
    autoRecall is off, when the event has no user message, and when the
    user message is the empty string. *)
Theorem before_agent_start_stays_silent :
  forall (config : PluginConfig) (client : MaasvClient) (event : AgentEvent),
    (autoRecall config = false
     \/ extractUserMessage event = Ret None
     \/ extractUserMessage event = Ret (Some "")) ->
    before_agent_start config client event = Ret None.
Proof.
  intros config client event H. unfold before_agent_start.
  destruct (autoRecall config); [|reflexivity].
  destruct H as [H|[H|H]]; [discriminate| |]; rewrite H; reflexivity.
Qed.

Lemma before_agent_start_stays_silent_witness :
  before_agent_start DEFAULT_CONFIG sample_client
    {| userMessage := Some ""; messages := None |} = Ret None.
Proof.
  apply before_agent_start_stays_silent. right. right. reflexivity.
Defined.

(** X6. With autoRecall on and a non-empty user message, the first thing the
    auto-recall hook does is the context request: the message as query,
    maxRecallResults as core_limit, the ceiling of its half as
    relevant_limit (a whole number, at least the half and less than the half
    plus one), and use_semantic true. *)
Theorem before_agent_start_request :
  forall (config : PluginConfig) (client : MaasvClient) (event : AgentEvent)
         (message : string),
    autoRecall config = true ->
    extractUserMessage event = Ret (Some message) ->
    message <> "" ->
    first_request (before_agent_start config client event)
    = Some (baseUrl client ++ "/v1/memory/context",
            {| init_method := "POST";
               init_headers := headers client;
               init_body :=
                 Some (JObj [("query", JStr message);
                             ("core_limit", JNum (maxRecallResults config));
                             ("relevant_limit",
                              JNum (Math_ceil (maxRecallResults config / 2)));
                             ("use_semantic", JBool true)]) |})
    /\ (exists whole : Z,
           Math_ceil (maxRecallResults config / 2) = inject_Z whole)
    /\ (maxRecallResults config / 2
        <= Math_ceil (maxRecallResults config / 2))%Q
    /\ (Math_ceil (maxRecallResults config / 2)
        < maxRecallResults config / 2 + 1)%Q.
Proof.
  intros config client event message Hon Hmsg Hne.
  unfold before_agent_start. rewrite Hon, Hmsg. simpl.
  apply String.eqb_neq in Hne. rewrite Hne. simpl.
  split; [reflexivity|]. split; [eexists; reflexivity|]. split.
  - apply Qle_ceiling.
  - unfold Math_ceil.
    pose proof (Qceiling_lt (maxRecallResults config / 2)) as H.
    unfold Z.sub in H. rewrite inject_Z_plus in H.
    apply (Qplus_lt_l _ _ (inject_Z (-1))).
    rewrite <- Qplus_assoc.
    setoid_replace (1 + inject_Z (-1))%Q with 0%Q by reflexivity.
    rewrite Qplus_0_r. exact H.
Qed.

Lemma before_agent_start_request_witness :
  "what do I like?" <> ""
  /\ first_request
       (before_agent_start DEFAULT_CONFIG sample_client
          {| userMessage := Some "what do I like?"; messages := None |})
     = Some ("http://127.0.0.1:18790/v1/memory/context",
             {| init_method := "POST";
                init_headers := [("Content-Type", "application/json")];
                init_body :=
                  Some (JObj [("query", JStr "what do I like?");
                              ("core_limit", JNum 5);
                              ("relevant_limit", JNum 3);
                              ("use_semantic", JBool true)]) |}).
Proof.
  assert (Hne : "what do I like?" <> "") by discriminate.
  split; [exact Hne|].
  destruct (before_agent_start_request DEFAULT_CONFIG sample_client
              {| userMessage := Some "what do I like?"; messages := None |}
              "what do I like?" eq_refl eq_refl Hne) as (E & _).
  rewrite E. reflexivity.
Defined.

Lemma substring_0_prefix (s : string) :
  forall n, prefix (substring 0 n s) s = true.
Proof.
  induction s as [|c s IH]; intros [|n]; simpl; try reflexivity.
  rewrite IH. destruct (ascii_dec c c); [reflexivity | congruence].
Qed.

Lemma substring_0_length (s : string) :
  forall n, String.length (substring 0 n s) = Nat.min n (String.length s).
Proof.
  induction s as [|c s IH]; intros [|n]; simpl; try reflexivity.
  now rewrite IH.
Qed.

(** [s.slice(0, q)] for a [q] that is not negative and smaller than the
    length of [s]: the first [ToIntegerOrInfinity q] characters of [s]. *)
Lemma slice_0_cuts (s : string) (q : number) :
  (0 <= q)%Q -> (q < number_of_nat (String.length s))%Q ->
  prefix (slice s 0 q) s = true
  /\ Z.of_nat (String.length (slice s 0 q)) = ToIntegerOrInfinity q.
Proof.
  intros Hq Hlt. destruct (ToIntegerOrInfinity_nonneg q Hq) as [H0 Hle].
  assert (Hlen : (ToIntegerOrInfinity q < Z.of_nat (String.length s))%Z).
  { rewrite Zlt_Qlt. eapply Qle_lt_trans; [exact Hle | exact Hlt]. }
  unfold slice. cbv zeta.
  replace (ToIntegerOrInfinity 0) with 0%Z by reflexivity.
  replace (0 <? 0)%Z with false by reflexivity.
  destruct (ToIntegerOrInfinity q <? 0)%Z eqn:Hneg; [apply Z.ltb_lt in Hneg; lia|].
  rewrite (Z.min_l 0) by lia.
  rewrite (Z.min_l (ToIntegerOrInfinity q)) by lia.
  destruct (0 >=? ToIntegerOrInfinity q)%Z eqn:Hge.
  - apply Z.geb_le in Hge. split; [destruct s; reflexivity | simpl; lia].
  - change (Z.to_nat 0) with 0%nat. split.
    + apply substring_0_prefix.
    + rewrite substring_0_length. lia.
Qed.

Lemma Qgtb_true (a b : number) : Qgtb a b = true <-> (b < a)%Q.
Proof.
  unfold Qgtb. rewrite negb_true_iff. split.
  - intros H. apply Qnot_le_lt. intros Hle.
    apply Qle_bool_iff in Hle. congruence.
  - intros H. destruct (Qle_bool a b) eqn:E; [|reflexivity].
    apply Qle_bool_iff in E. exfalso. exact (Qlt_not_le _ _ H E).
Qed.

Lemma Qgtb_le (a b : number) : (a <= b)%Q -> Qgtb a b = false.
Proof.
  intros H. unfold Qgtb. apply Qle_bool_iff in H. now rewrite H.
Qed.

(** X7. What the auto-recall hook makes of a context that the service
    returns: nothing for the empty context; the context itself between the
    tags when it has at most 4 * maxRecallTokens characters; and, for a
    budget that is not negative, the first characters of the context, as
    many as the whole part of the budget, followed by the marker. *)
Theorem before_agent_start_result :
  forall (config : PluginConfig) (client : MaasvClient) (event : AgentEvent)
         (message : string),
    autoRecall config = true ->
    extractUserMessage event = Ret (Some message) ->
    message <> "" ->
    exists url init k,
      before_agent_start config client event = Fetch ContextReply url init k
      /\ forall o reply,
           handle_response "POST" "/v1/memory/context" o = Ret reply ->
           (context reply = "" -> k o = Ret None)
           /\ (context reply <> "" ->
               (number_of_nat (String.length (context reply))
                <= maxRecallTokens config * 4)%Q ->
               k o = Ret (Some {| prependContext :=
                                    long_term_memory (context reply) |}))
           /\ ((0 <= maxRecallTokens config)%Q ->
               (maxRecallTokens config * 4
                < number_of_nat (String.length (context reply)))%Q ->
               exists kept,
                 prefix kept (context reply) = true
                 /\ Z.of_nat (String.length kept)
                    = ToIntegerOrInfinity (maxRecallTokens config * 4)
                 /\ k o = Ret (Some {| prependContext :=
                                         long_term_memory
                                           (kept ++ truncation_marker) |})).
Proof.
  intros config client event message Hon Hmsg Hne.
  unfold before_agent_start. rewrite Hon, Hmsg. simpl.
  apply String.eqb_neq in Hne. rewrite Hne. simpl.
  eexists _, _, _. split; [reflexivity|].
  intros o reply E. cbv beta. rewrite E. simpl.
  split; [|split].
  - intros ->. reflexivity.
  - intros Hc Hle. apply String.eqb_neq in Hc. rewrite Hc. simpl.
    destruct (String.length (context reply)) eqn:Hlen.
    + destruct (context reply); [discriminate Hc | discriminate Hlen].
    + simpl. rewrite (Qgtb_le _ _ Hle). reflexivity.
  - intros HN Hlt.
    assert (Hbudget : (0 <= maxRecallTokens config * 4)%Q).
    { apply Qmult_le_0_compat; [exact HN | discriminate]. }
    destruct (slice_0_cuts (context reply) _ Hbudget Hlt) as [Hpre Hkept].
    exists (slice (context reply) 0 (maxRecallTokens config * 4)).
    split; [exact Hpre|]. split; [exact Hkept|].
    destruct (context reply =? "") eqn:Hc.
    + apply String.eqb_eq in Hc. rewrite Hc in Hlt. exfalso.
      apply (Qlt_not_le _ _ Hlt). exact Hbudget.
    + simpl. destruct (String.length (context reply)) eqn:Hlen.
      * exfalso. apply (Qlt_not_le _ _ Hlt). exact Hbudget.
      * simpl. apply Qgtb_true in Hlt. rewrite Hlt. reflexivity.
Qed.

Lemma before_agent_start_result_witness :
  "hi" <> ""
  /\ may_return
       (before_agent_start DEFAULT_CONFIG sample_client
          {| userMessage := Some "hi"; messages := None |})
       (Some {| prependContext := long_term_memory "likes coffee" |}).
Proof.
  assert (Hne : "hi" <> "") by discriminate.
  split; [exact Hne|].
  destruct (before_agent_start_result DEFAULT_CONFIG sample_client
              {| userMessage := Some "hi"; messages := None |} "hi"
              eq_refl eq_refl Hne) as (url & init & k & E & H).
  rewrite E. simpl.
  exists (Resolved {| ok := true; status := 200; text_result := None;
                      json_result := inr {| context := "likes coffee" |} |}).
  destruct (H (Resolved {| ok := true; status := 200; text_result := None;
                           json_result := inr {| context := "likes coffee" |} |})
              {| context := "likes coffee" |} eq_refl) as (_ & Hwhole & _).
  rewrite Hwhole; [reflexivity | discriminate | discriminate].
Defined.

Lemma no_throw_not_may_throw {A} (p : Prog A) (m : string) :
  no_throw p -> ~ may_throw p m.
Proof.
  induction p as [a|e|T url init k IH|l line k IH]; simpl; intros Hn Hm.
  - exact Hm.
  - exact Hn.
  - destruct Hm as [o Ho]. exact (IH o (Hn o) Ho).
  - exact (IH Hn Hm).
Qed.

(** X8. An exception leaves the auto-recall hook exactly when autoRecall is
    on and reading the user message throws (JSON.stringify of the content of
    the last user message), which happens before the try block; the
    auto-capture hook has the same reading inside its try block and turns
    the exception into a warning. *)
Theorem message_extraction_failure :
  forall (config : PluginConfig) (client : MaasvClient) (event : AgentEvent)
         (m : string),
    (may_throw (before_agent_start config client event) m
     <-> autoRecall config = true /\ extractUserMessage event = Throw m)
    /\ (autoCapture config = true ->
        extractConversation event = Throw m ->
        agent_end config client event
        = Log LogWarn ("Auto-capture failed: " ++ m) (Ret tt)).
Proof.
  intros config client event m. split.
  - unfold before_agent_start. destruct (autoRecall config); simpl.
    + destruct (extractUserMessage_pure event) as [[r ->]|[e ->]]; simpl.
      * split; [|intros [_ H]; discriminate].
        destruct (truthy r); simpl; [|tauto].
        intros [o Ho]. exfalso. revert Ho. apply no_throw_not_may_throw.
        apply no_throw_try_catch. intros e. exact I.
      * split; [intros ->; auto | intros [_ [= ->]]; reflexivity].
    + split; [tauto | intros [H _]; discriminate].
  - intros Hon Hthrow. unfold agent_end. rewrite Hon, Hthrow. reflexivity.
Qed.

Lemma message_extraction_failure_witness :
  may_throw (before_agent_start DEFAULT_CONFIG sample_client
               unreadable_user_message)
    "circular structure"
  /\ agent_end DEFAULT_CONFIG sample_client unreadable_user_message
     = Log LogWarn "Auto-capture failed: circular structure" (Ret tt).
Proof.
  destruct (message_extraction_failure DEFAULT_CONFIG sample_client
              unreadable_user_message "circular structure")
    as [Hrecall Hcapture].
  split.
  - apply Hrecall. split; reflexivity.
  - apply Hcapture; reflexivity.
Defined.

Lemma conversation_parts_printable (ms : list Message) :
  (forall m, In m ms -> in_conversation m = true -> printable m) ->
  conversation_parts ms
  = Ret (map conversation_line (filter in_conversation ms)).
Proof.
  induction ms as [|msg rest IH]; simpl; intros H; [reflexivity|].
  fold (in_conversation msg).
  rewrite IH by (intros m Hm; apply H; now right).
  destruct (in_conversation msg) eqn:Hconv; [|reflexivity].
  pose proof (H msg (or_introl eq_refl) Hconv) as Hp.
  unfold printable in Hp. cbn [map].
  destruct (msg_content msg) as [s|[s| |e]] eqn:Hc; simpl;
    unfold conversation_line; rewrite ?Hc; try reflexivity.
  contradiction.
Qed.

(** X9. When every user or assistant message can be turned into text,
    [extractConversation] gives null if there is no such message and
    otherwise their lines "role: content", in the order of the event, joined
    by a blank line; messages of any other role leave no trace. *)
Theorem extractConversation_text :
  forall (event : AgentEvent) (ms : list Message),
    messages event = Some ms ->
    (forall m, In m ms -> in_conversation m = true -> printable m) ->
    extractConversation event
    = Ret match filter in_conversation ms with
          | [] => None
          | kept => Some (String.concat (LF ++ LF) (map conversation_line kept))
          end.
Proof.
  intros event ms Hms Hprint. unfold extractConversation. rewrite Hms.
  rewrite (conversation_parts_printable ms Hprint). simpl.
  destruct (filter in_conversation ms); reflexivity.
Qed.

Lemma extractConversation_text_witness :
  extractConversation long_conversation
  = Ret (Some ("user: I moved to Lisbon last month." ++ LF ++ LF
               ++ "assistant: Noted, Lisbon it is.")).
Proof.
  rewrite (extractConversation_text long_conversation
             [ {| role := "user";
                  msg_content := ContentString "I moved to Lisbon last month." |};
               {| role := "system"; msg_content := ContentString "ignored" |};
               {| role := "assistant";
                  msg_content := ContentString "Noted, Lisbon it is." |} ]
             eq_refl).
  - reflexivity.
  - intros m [<-|[<-|[<-|[]]]] _; exact I.
Defined.

(* ================================================================== *)
(** ** More of [register] *)

Ltac in_literals :=
  let H := fresh in
  intros H; repeat (destruct H as [H|H]; [discriminate H|]); contradiction.

(** X10. [register] always registers memory_search, memory_store and
    memory_forget; it registers memory_graph exactly when the effective
    enableGraph is true and memory_wisdom exactly when the effective
    enableWisdom is true; no tool is registered twice. *)
Theorem register_tools :
  forall pluginConfig : option RawConfig,
    let r := register pluginConfig in
    In "memory_search" (reg_tools r)
    /\ In "memory_store" (reg_tools r)
    /\ In "memory_forget" (reg_tools r)
    /\ (In "memory_graph" (reg_tools r) <-> enableGraph (reg_config r) = true)
    /\ (In "memory_wisdom" (reg_tools r) <-> enableWisdom (reg_config r) = true)
    /\ NoDup (reg_tools r).
Proof.
  intros pluginConfig. cbv zeta. unfold register. cbv zeta.
  cbn [reg_tools reg_config].
  destruct (enableGraph _), (enableWisdom _); simpl;
    (split; [tauto|]); (split; [tauto|]); (split; [tauto|]);
    (split; [split; [first [ intros _; reflexivity | in_literals ]
                    | intros H; first [ discriminate H | tauto ] ]|]);
    (split; [split; [first [ intros _; reflexivity | in_literals ]
                    | intros H; first [ discriminate H | tauto ] ]|]);
    repeat (constructor; [simpl; in_literals|]); constructor.
Qed.

(** X11. A key that the supplied configuration does not hold keeps its
    default, for every key; in particular the empty object gives the same
    configuration as no configuration at all. *)
Theorem register_absent_keys :
  forall raw : RawConfig,
    let config := reg_config (register (Some raw)) in
    (raw_serverUrl raw = None -> serverUrl config = "http://127.0.0.1:18790")
    /\ (raw_apiKey raw = None -> apiKey config = None)
    /\ (raw_autoRecall raw = None -> autoRecall config = true)
    /\ (raw_autoCapture raw = None -> autoCapture config = true)
    /\ (raw_maxRecallResults raw = None -> maxRecallResults config = 5)
    /\ (raw_maxRecallTokens raw = None -> maxRecallTokens config = 2000)
    /\ (raw_enableGraph raw = None -> enableGraph config = true)
    /\ (raw_enableWisdom raw = None -> enableWisdom config = false)
    /\ reg_config (register (Some empty_object)) = reg_config (register None).
Proof.
  intros raw. cbv zeta. simpl.
  repeat split; intros E; rewrite E; reflexivity.
Qed.

Lemma register_absent_keys_witness :
  raw_maxRecallResults sample_raw_config = None
  /\ maxRecallResults (reg_config (register (Some sample_raw_config))) = 5.
Proof.
  destruct (register_absent_keys sample_raw_config)
    as (_ & _ & _ & _ & H & _).
  split; [reflexivity | apply H; reflexivity].
Defined.

(** X12. The hooks that [register] installs work with the effective
    configuration: a supplied autoRecall: false (autoCapture: false) makes
    the hook return at once, and a request of the auto-capture hook goes to
    the supplied server URL, without its trailing slashes, with the supplied
    non-empty apiKey as X-Maasv-Key. *)
Theorem register_hooks_use_supplied_config :
  forall (raw : RawConfig) (event : AgentEvent),
    let r := register (Some raw) in
    (raw_autoRecall raw = Some false ->
     reg_before_agent_start r event = Ret None)
    /\ (raw_autoCapture raw = Some false -> reg_agent_end r event = Ret tt)
    /\ (forall server key url init,
           raw_serverUrl raw = Some server ->
           raw_apiKey raw = Some key ->
           key <> "" ->
           first_request (reg_agent_end r event) = Some (url, init) ->
           url = strip_trailing_slashes server ++ "/v1/extract"
           /\ lookup_header "X-Maasv-Key" (init_headers init) = Some key).
Proof.
  intros raw event. cbv zeta. unfold register. cbv zeta.
  cbn [reg_before_agent_start reg_agent_end].
  split; [|split].
  - intros E. unfold before_agent_start. simpl. rewrite E. reflexivity.
  - intros E. unfold agent_end. simpl. rewrite E. reflexivity.
  - intros server key url init Hs Hk Hne.
    unfold agent_end.
    destruct (autoCapture _); simpl; [|discriminate].
    destruct (extractConversation_pure event) as [[t ->]|[m ->]]; simpl;
      [|discriminate].
    destruct (negb (truthy t) || (String.length (nullish t "") <? 50)%nat);
      simpl; [discriminate|].
    rewrite Hs, Hk. simpl.
    apply String.eqb_neq in Hne. rewrite Hne. simpl.
    intros [= <- <-]. simpl. split; reflexivity.
Qed.

Lemma register_hooks_use_supplied_config_witness :
  "secret" <> ""
  /\ first_request
       (reg_agent_end (register (Some sample_raw_config)) long_conversation)
     = Some ("http://10.0.0.5:9000/v1/extract",
             {| init_method := "POST";
                init_headers := [("Content-Type", "application/json");
                                 ("X-Maasv-Key", "secret")];
                init_body :=
                  Some (JObj [("text",
                               JStr ("user: I moved to Lisbon last month."
                                     ++ LF ++ LF
                                     ++ "assistant: Noted, Lisbon it is."));
                              ("topic", JStr "")]) |})
  /\ lookup_header "X-Maasv-Key"
       [("Content-Type", "application/json"); ("X-Maasv-Key", "secret")]
     = Some "secret".
Proof.
  assert (Hne : "secret" <> "") by discriminate.
  split; [exact Hne|]. split; [reflexivity|].
  destruct (register_hooks_use_supplied_config sample_raw_config long_conversation)
    as (_ & _ & H).
  destruct (H "http://10.0.0.5:9000/" "secret" _ _ eq_refl eq_refl Hne eq_refl)
    as [_ Hkey].
  exact Hkey.
Defined.

(* ================================================================== *)
(** ** More of the tools *)

(** X13. memory_forget sends one DELETE request for the id as it is given
    and always answers with a text: "Deleted memory: id" when the request
    returns, whatever the reply says (its [deleted] flag is not read), and
    "Failed to delete memory id: message" when it throws. *)
Theorem memory_forget_result :
  forall (client : MaasvClient) (params : MemoryForgetParams),
  exists k,
    memory_forget_execute client params
    = Fetch DeleteReply (baseUrl client ++ "/v1/memory/" ++ mfp_id params)
        {| init_method := "DELETE";
           init_headers := headers client;
           init_body := None |}
        k
    /\ forall o,
         (forall reply,
             handle_response "DELETE" ("/v1/memory/" ++ mfp_id params) o
             = Ret reply ->
             k o = Ret (text_content ("Deleted memory: " ++ mfp_id params)))
         /\ (forall m,
                handle_response "DELETE" ("/v1/memory/" ++ mfp_id params) o
                = Throw m ->
                k o = Ret (text_content ("Failed to delete memory "
                                         ++ mfp_id params ++ ": " ++ m))).
Proof.
  intros client params. eexists. split; [reflexivity|].
  intros o. split; intros x E; cbv beta; rewrite E; reflexivity.
Qed.

Lemma map_index_length {A B} (f : A -> nat -> B) (xs : list A) :
  forall i, List.length (map_index f i xs) = List.length xs.
Proof. induction xs as [|x xs IH]; intros i; simpl; [reflexivity | now rewrite IH]. Qed.

Lemma map_index_nth_error {A B} (f : A -> nat -> B) (xs : list A) :
  forall i j x,
    nth_error xs j = Some x ->
    nth_error (map_index f i xs) j = Some (f x (i + j)%nat).
Proof.
  induction xs as [|y xs IH]; intros i [|j] x; simpl; try discriminate.
  - intros [= ->]. now rewrite Nat.add_0_r.
  - intros H. rewrite (IH (S i) j x H). f_equal. f_equal. lia.
Qed.

(** X14. What memory_search answers when its request returns: "No memories
    found." when the reply's count is 0, whatever its results hold;
    otherwise a header with that count and one entry per result, in the
    order of the reply, numbered from 1, each starting with the number, the
    subject in brackets when it is not empty, and the content. *)
Theorem memory_search_result :
  forall (String_of_number : number -> string) (toFixed : number -> nat -> string)
         (client : MaasvClient) (params : MemorySearchParams),
  exists url init k,
    memory_search_execute String_of_number toFixed client params
    = Fetch SearchReply url init k
    /\ forall o reply,
         handle_response "POST" "/v1/memory/search" o = Ret reply ->
         ((count reply == 0)%Q -> k o = Ret (text_content "No memories found."))
         /\ (~ (count reply == 0)%Q ->
             exists entries,
               k o = Ret (text_content
                            ("Found " ++ String_of_number (count reply)
                             ++ " memories:" ++ LF ++ LF
                             ++ String.concat (LF ++ LF) entries))
               /\ List.length entries = List.length (results reply)
               /\ forall i m,
                    nth_error (results reply) i = Some m ->
                    exists rest,
                      nth_error entries i
                      = Some (string_of_Z (Z.of_nat (i + 1)) ++ ". "
                              ++ (if truthy (mem_subject (memory m))
                                  then "[" ++ nullish (mem_subject (memory m)) ""
                                       ++ "] "
                                  else "")
                              ++ mem_content (memory m) ++ rest)).
Proof.
  intros S F client params. eexists _, _, _. split; [reflexivity|].
  intros o reply E. cbv beta. rewrite E. simpl.
  split.
  - intros H. apply Qeq_bool_iff in H. rewrite H. reflexivity.
  - intros H. destruct (Qeq_bool (count reply) 0) eqn:Hc.
    + apply Qeq_bool_iff in Hc. contradiction.
    + eexists. split; [reflexivity|]. split; [apply map_index_length|].
      intros i m Hm. eexists.
      rewrite (map_index_nth_error _ _ 0 i m Hm). simpl. reflexivity.
Qed.

(** X15. What the tools put on the wire for the optional parameters, in the
    key order of their object literals: memory_search asks for the given
    limit, or 5; memory_store always sends the given confidence, or 1, and
    then source "openclaw"; category and subject filters and the subject of
    a memory are sent only when given. *)
Theorem tool_request_defaults :
  forall (String_of_number : number -> string) (toFixed : number -> nat -> string)
         (client : MaasvClient),
    (forall params,
        first_request
          (memory_search_execute String_of_number toFixed client params)
        = Some (baseUrl client ++ "/v1/memory/search",
                {| init_method := "POST";
                   init_headers := headers client;
                   init_body :=
                     Some (JObj ([("query", JStr (msp_query params));
                                  ("limit",
                                   JNum (match msp_limit params with
                                         | Some limit => limit
                                         | None => 5
                                         end))]
                                 ++ prop "category" JStr (msp_category params)
                                 ++ prop "subject" JStr (msp_subject params))%list)
                |}))
    /\ (forall params,
        first_request (memory_store_execute client params)
        = Some (baseUrl client ++ "/v1/memory/store",
                {| init_method := "POST";
                   init_headers := headers client;
                   init_body :=
                     Some (JObj ([("content", JStr (mst_content params));
                                  ("category", JStr (mst_category params))]
                                 ++ prop "subject" JStr (mst_subject params)
                                 ++ [("confidence",
                                      JNum (match mst_confidence params with
                                            | Some confidence => confidence
                                            | None => 1
                                            end));
                                     ("source", JStr "openclaw")])%list)
                |})).
Proof.
  intros S F client. split; intros params; simpl.
  - destruct (msp_limit params); reflexivity.
  - destruct (mst_confidence params); reflexivity.
Qed.

Lemma map_shown_ext (G : Relationship -> string) :
  (forall r1 r2, shown_target r1 = shown_target r2 -> G r1 = G r2) ->
  forall l1 l2,
    map shown_target l1 = map shown_target l2 -> map G l1 = map G l2.
Proof.
  intros HG. induction l1 as [|r1 l1 IH]; intros [|r2 l2]; cbn [map];
    try discriminate; [reflexivity|].
  intros H.
  assert (Hr : shown_target r1 = shown_target r2)
    by exact (f_equal (hd (shown_target r1)) H).
  assert (Hl : map shown_target l1 = map shown_target l2)
    by exact (f_equal (@tl _) H).
  rewrite (HG r1 r2 Hr), (IH l2 Hl). reflexivity.
Qed.

Lemma flat_map_shown_ext (F : string * list Relationship -> list string) :
  (forall e1 e2,
      fst e1 = fst e2 ->
      map shown_target (snd e1) = map shown_target (snd e2) -> F e1 = F e2) ->
  forall l1 l2,
    map (fun entry => (fst entry, map shown_target (snd entry))) l1
    = map (fun entry => (fst entry, map shown_target (snd entry))) l2 ->
    flat_map F l1 = flat_map F l2.
Proof.
  intros HF. induction l1 as [|e1 l1 IH]; intros [|e2 l2]; cbn [map flat_map];
    try discriminate; [reflexivity|].
  intros H.
  assert (Hf : fst e1 = fst e2)
    by exact (f_equal (fun l => fst (hd (fst e1, []) l)) H).
  assert (Hs : map shown_target (snd e1) = map shown_target (snd e2))
    by exact (f_equal (fun l => snd (hd (fst e1, []) l)) H).
  assert (Hl : map (fun entry => (fst entry, map shown_target (snd entry))) l1
               = map (fun entry => (fst entry, map shown_target (snd entry))) l2)
    by exact (f_equal (@tl _) H).
  rewrite (HF e1 e2 Hf Hs), (IH l2 Hl). reflexivity.
Qed.

Lemma profile_lines_closed_form (rels : list (string * list Relationship)) :
  flat_map
    (fun entry =>
       map (fun rel =>
              "- " ++ fst entry ++ ": "
              ++ nullish (rel_object_name rel)
                   (nullish (rel_object_value rel)
                      (nullish (rel_object_id rel) "null")))
           (snd entry))
    rels
  = List.concat
      (map (fun entry => map (profile_line (fst entry)) (snd entry)) rels).
Proof.
  rewrite flat_map_concat_map. reflexivity.
Qed.

(** X16. The profile action of memory_graph prints every relationship that
    the reply holds: its text is the heading "# name (type)" followed by one
    line for each relationship of each predicate, in the order of the
    reply, whether the relationship's valid_to is set or not.  So the text
    depends on the name and type of the entity and, for each relationship,
    on its predicate and its object_name, object_value and object_id only,
    and every relationship of the reply has its line in the text. *)
Theorem graph_profile_prints_all_relationships :
  forall (String_of_number : number -> string) (client : MaasvClient)
         (params : MemoryGraphParams) (id : string),
    mgp_action params = GraphProfile ->
    mgp_entity_id params = Some id ->
    id <> "" ->
    exists k,
      memory_graph_execute String_of_number client params
      = Fetch EntityProfile (baseUrl client ++ "/v1/graph/entities/" ++ id)
          {| init_method := "GET";
             init_headers := headers client;
             init_body := None |}
          k
      /\ (forall o p,
             handle_response "GET" ("/v1/graph/entities/" ++ id) o = Ret p ->
             exists lines,
               lines
               = List.concat
                   (map (fun entry => map (profile_line (fst entry)) (snd entry))
                        (relationships p))
               /\ k o = Ret (text_content
                               (String.concat LF
                                  (("# " ++ ent_name (entity p) ++ " ("
                                    ++ ent_entity_type (entity p) ++ ")")
                                   :: lines)))
               /\ List.length lines
                  = list_sum (map (fun entry => List.length (snd entry))
                                  (relationships p))
               /\ forall predicate rels rel,
                    In (predicate, rels) (relationships p) ->
                    In rel rels ->
                    In (profile_line predicate rel) lines)
      /\ (forall o1 o2 p1 p2,
             handle_response "GET" ("/v1/graph/entities/" ++ id) o1 = Ret p1 ->
             handle_response "GET" ("/v1/graph/entities/" ++ id) o2 = Ret p2 ->
             ent_name (entity p1) = ent_name (entity p2) ->
             ent_entity_type (entity p1) = ent_entity_type (entity p2) ->
             shown_relationships p1 = shown_relationships p2 ->
             k o1 = k o2)
      /\ (forall o p pred rel,
             handle_response "GET" ("/v1/graph/entities/" ++ id) o = Ret p ->
             relationships p = [(pred, [rel])] ->
             k o = Ret (text_content
                          (("# " ++ ent_name (entity p) ++ " ("
                            ++ ent_entity_type (entity p) ++ ")") ++ LF
                           ++ "- " ++ pred ++ ": "
                           ++ match rel_object_name rel, rel_object_value rel,
                                    rel_object_id rel with
                              | Some name, _, _ => name
                              | None, Some value, _ => value
                              | None, None, Some object => object
                              | None, None, None => "null"
                              end))).
Proof.
  intros S client params id Hact Hid Hne.
  unfold memory_graph_execute. rewrite Hact, Hid.
  cbn [truthy negb nullish].
  apply String.eqb_neq in Hne. rewrite Hne. cbn [negb].
  unfold getEntityProfile, request. cbn [bind].
  eexists. split; [reflexivity|]. split; [|split].
  - intros o p E. cbv beta. rewrite E. cbn [bind]. cbv zeta.
    rewrite profile_lines_closed_form.
    eexists. split; [reflexivity|]. split; [reflexivity|]. split.
    + induction (relationships p) as [|entry rest IH]; [reflexivity|].
      cbn [map List.concat list_sum]. rewrite length_app, length_map, IH.
      reflexivity.
    + intros predicate rels rel Hentry Hrel.
      apply in_concat. exists (map (profile_line predicate) rels). split.
      * apply in_map_iff. exists (predicate, rels). split; [reflexivity|exact Hentry].
      * apply in_map. exact Hrel.
  - intros o1 o2 p1 p2 E1 E2 Hname Htype Hshown. cbv beta.
    rewrite E1, E2. cbn [bind]. cbv zeta. rewrite Hname, Htype.
    match goal with
    | |- context [flat_map ?F (relationships p1)] =>
        assert (HL : flat_map F (relationships p1)
                     = flat_map F (relationships p2))
    end.
    { apply flat_map_shown_ext; [|exact Hshown].
      intros e1 e2 Hf Hs. rewrite Hf.
      apply map_shown_ext; [|exact Hs].
      intros r1 r2 Hr. unfold shown_target in Hr.
      injection Hr as -> -> ->. reflexivity. }
    rewrite HL. reflexivity.
  - intros o p pred rel E Hrels. cbv beta. rewrite E. simpl. rewrite Hrels. simpl.
    destruct (rel_object_name rel), (rel_object_value rel), (rel_object_id rel);
      reflexivity.
Qed.

Lemma graph_profile_prints_all_relationships_witness :
  "ent_A" <> ""
  /\ first_request
       (memory_graph_execute sample_number_printer sample_client
          (profile_of_entity "ent_A"))
     = Some ("http://127.0.0.1:18790/v1/graph/entities/ent_A",
             {| init_method := "GET";
                init_headers := [("Content-Type", "application/json")];
                init_body := None |})
  /\ may_return
       (memory_graph_execute sample_number_printer sample_client
          (profile_of_entity "ent_A"))
       (text_content ("# Ada (person)" ++ LF ++ "- works_on: ProjectX" ++ LF
                      ++ "- works_on: ProjectY")).
Proof.
  assert (Hne : "ent_A" <> "") by discriminate.
  split; [exact Hne|].
  destruct (graph_profile_prints_all_relationships sample_number_printer
              sample_client (profile_of_entity "ent_A")
              "ent_A" eq_refl eq_refl Hne) as (k & E & Hall & _).
  rewrite E. split; [reflexivity|].
  cbn [may_return].
  exists (Resolved {| ok := true; status := 200; text_result := None;
                      json_result := inr sample_profile |}).
  destruct (Hall (Resolved {| ok := true; status := 200; text_result := None;
                              json_result := inr sample_profile |})
              sample_profile eq_refl) as (lines & Hlines & Hk & _).
  rewrite Hk, Hlines. reflexivity.
Defined.

(** X17. The add_relationship action forwards object_id and object_value as
    they are given: both when both are given, and an empty string too, as
    long as one of the two is not empty; it never sends a confidence or a
    source. *)
Theorem graph_add_relationship_request :
  forall (String_of_number : number -> string) (client : MaasvClient)
         (params : MemoryGraphParams) (subject predicate : string),
    mgp_action params = GraphAddRelationship ->
    mgp_subject_id params = Some subject -> subject <> "" ->
    mgp_predicate params = Some predicate -> predicate <> "" ->
    truthy (mgp_object_id params) || truthy (mgp_object_value params) = true ->
    first_request (memory_graph_execute String_of_number client params)
    = Some (baseUrl client ++ "/v1/graph/relationships",
            {| init_method := "POST";
               init_headers := headers client;
               init_body :=
                 Some (JObj ([("subject_id", JStr subject);
                              ("predicate", JStr predicate)]
                             ++ prop "object_id" JStr (mgp_object_id params)
                             ++ prop "object_value" JStr
                                  (mgp_object_value params))%list) |}).
Proof.
  intros S client params subject predicate Hact Hs Hsne Hp Hpne Hobj.
  unfold memory_graph_execute. rewrite Hact, Hs, Hp. simpl.
  apply String.eqb_neq in Hsne, Hpne. rewrite Hsne, Hpne. simpl.
  apply orb_true_iff in Hobj.
  assert (Hguard : negb (truthy (mgp_object_id params))
                   && negb (truthy (mgp_object_value params)) = false).
  { destruct Hobj as [-> | ->]; simpl; [reflexivity | apply andb_false_r]. }
  rewrite Hguard. simpl. unfold json_of_RelationshipRequest. simpl.
  rewrite !app_nil_r. reflexivity.
Qed.

Lemma graph_add_relationship_request_witness :
  "ent_A" <> "" /\ "works_on" <> ""
  /\ first_request
       (memory_graph_execute sample_number_printer sample_client
          relate_with_both_objects)
     = Some ("http://127.0.0.1:18790/v1/graph/relationships",
             {| init_method := "POST";
                init_headers := [("Content-Type", "application/json")];
                init_body :=
                  Some (JObj [("subject_id", JStr "ent_A");
                              ("predicate", JStr "works_on");
                              ("object_id", JStr "ent_B");
                              ("object_value", JStr "ProjectX")]) |}).
Proof.
  assert (H1 : "ent_A" <> "") by discriminate.
  assert (H2 : "works_on" <> "") by discriminate.
  split; [exact H1|]. split; [exact H2|].
  rewrite (graph_add_relationship_request sample_number_printer sample_client
             relate_with_both_objects "ent_A" "works_on"
             eq_refl eq_refl H1 eq_refl H2 eq_refl).
  reflexivity.
Defined.

Lemma at_most_one_fetch_request {A T} (client : MaasvClient)
    (method path : string) (body : option json) (f : T -> Prog A) :
  (forall a, no_fetch (f a)) ->
  at_most_one_fetch (bind (request client method path body) f).
Proof.
  intros Hf o. simpl. apply no_fetch_bind; [apply no_fetch_handle_response | exact Hf].
Qed.

Lemma at_most_one_fetch_guarded {A T} (client : MaasvClient)
    (method path : string) (body : option json) (f : T -> Prog A)
    (h : string -> Prog A) :
  (forall a, no_fetch (f a)) -> (forall m, no_fetch (h m)) ->
  at_most_one_fetch (try_catch (bind (request client method path body) f) h).
Proof.
  intros Hf Hh o. simpl. apply no_fetch_try_catch; [|exact Hh].
  apply no_fetch_bind; [apply no_fetch_handle_response | exact Hf].
Qed.

(** X18. memory_graph answers with a text that starts with "Error:", and
    sends nothing, exactly when a parameter that the action needs is absent
    or the empty string; in every other case it sends one request and no
    second one. *)
Theorem memory_graph_guard :
  forall (String_of_number : number -> string) (client : MaasvClient)
         (params : MemoryGraphParams),
    if graph_required_present params then
      (exists sent,
          first_request (memory_graph_execute String_of_number client params)
          = Some sent)
      /\ at_most_one_fetch (memory_graph_execute String_of_number client params)
    else
      exists r, memory_graph_execute String_of_number client params = Ret r
                /\ error_result r.
Proof.
  intros S client params.
  unfold graph_required_present, memory_graph_execute.
  destruct (mgp_action params).
  - destruct (truthy (mgp_query params)); simpl.
    + split; [eexists; reflexivity|].
      intros o. apply no_fetch_bind; [apply no_fetch_handle_response|].
      intros reply. destruct (Qeq_bool (ent_count reply) 0); exact I.
    + eexists. split; [reflexivity|]. eexists. split; reflexivity.
  - destruct (truthy (mgp_entity_id params)); simpl.
    + split; [eexists; reflexivity|].
      intros o. apply no_fetch_bind; [apply no_fetch_handle_response|].
      intros reply. exact I.
    + eexists. split; [reflexivity|]. eexists. split; reflexivity.
  - destruct (truthy (mgp_subject_id params)); simpl;
      [|eexists; split; [reflexivity|]; eexists; split; reflexivity].
    destruct (truthy (mgp_predicate params)); simpl;
      [|eexists; split; [reflexivity|]; eexists; split; reflexivity].
    destruct (truthy (mgp_object_id params)); simpl.
    + split; [eexists; reflexivity|].
      intros o. apply no_fetch_bind; [apply no_fetch_handle_response|].
      intros reply. exact I.
    + destruct (truthy (mgp_object_value params)); simpl.
      * split; [eexists; reflexivity|].
        intros o. apply no_fetch_bind; [apply no_fetch_handle_response|].
        intros reply. exact I.
      * eexists. split; [reflexivity|]. eexists. split; reflexivity.
Qed.

(** X19. memory_wisdom answers with a text that starts with "Error:", and
    sends nothing, exactly when a string that the action needs is absent or
    empty, or the score of a feedback is absent (a score of 0 counts as
    given); in every other case it sends one request and no second one. *)
Theorem memory_wisdom_guard :
  forall (String_of_number : number -> string) (client : MaasvClient)
         (params : MemoryWisdomParams),
    if wisdom_required_present params then
      (exists sent,
          first_request (memory_wisdom_execute String_of_number client params)
          = Some sent)
      /\ at_most_one_fetch (memory_wisdom_execute String_of_number client params)
    else
      exists r, memory_wisdom_execute String_of_number client params = Ret r
                /\ error_result r.
Proof.
  intros S client params.
  unfold wisdom_required_present, memory_wisdom_execute.
  destruct (mwp_action params).
  - destruct (truthy (mwp_action_type params)); simpl;
      [|eexists; split; [reflexivity|]; eexists; split; reflexivity].
    destruct (truthy (mwp_reasoning params)); simpl.
    + split; [eexists; reflexivity|].
      intros o. apply no_fetch_bind; [apply no_fetch_handle_response|].
      intros reply. exact I.
    + eexists. split; [reflexivity|]. eexists. split; reflexivity.
  - destruct (truthy (mwp_wisdom_id params)); simpl;
      [|eexists; split; [reflexivity|]; eexists; split; reflexivity].
    destruct (truthy (mwp_outcome params)); simpl.
    + split; [eexists; reflexivity|].
      intros o. apply no_fetch_bind; [apply no_fetch_handle_response|].
      intros reply. exact I.
    + eexists. split; [reflexivity|]. eexists. split; reflexivity.
  - destruct (truthy (mwp_wisdom_id params)); simpl;
      [|eexists; split; [reflexivity|]; eexists; split; reflexivity].
    destruct (mwp_score params); simpl.
    + split; [eexists; reflexivity|].
      intros o. apply no_fetch_bind; [apply no_fetch_handle_response|].
      intros reply. exact I.
    + eexists. split; [reflexivity|]. eexists. split; reflexivity.
  - destruct (truthy (mwp_query params)); simpl.
    + split; [eexists; reflexivity|].
      intros o. apply no_fetch_bind; [apply no_fetch_handle_response|].
      intros reply. destruct (Qeq_bool (wis_count reply) 0); exact I.
    + eexists. split; [reflexivity|]. eexists. split; reflexivity.
Qed.

Lemma slice_0_whole (s : string) (n : nat) :
  slice s 0 (inject_Z (Z.of_nat n))
  = substring 0 (Nat.min n (String.length s)) s.
Proof.
  unfold slice. cbv zeta.
  replace (ToIntegerOrInfinity 0) with 0%Z by reflexivity.
  replace (ToIntegerOrInfinity (inject_Z (Z.of_nat n))) with (Z.of_nat n)
    by (unfold ToIntegerOrInfinity; simpl; now rewrite Z.quot_1_r).
  replace (0 <? 0)%Z with false by reflexivity.
  destruct (Z.of_nat n <? 0)%Z eqn:Hneg; [apply Z.ltb_lt in Hneg; lia|].
  rewrite (Z.min_l 0) by lia.
  rewrite <- Nat2Z.inj_min.
  destruct (0 >=? Z.of_nat (Nat.min n (String.length s)))%Z eqn:Hge.
  - apply Z.geb_le in Hge.
    replace (Nat.min n (String.length s)) with 0%nat by lia.
    destruct s; reflexivity.
  - rewrite Z.sub_0_r, Nat2Z.id. reflexivity.
Qed.

(** X20. What the search action of memory_wisdom answers when its request
    returns: "No wisdom entries found." when the reply's count is 0;
    otherwise a header with that count and one line per entry, in the order
    of the reply, which shows the outcome, the feedback score when there is
    one, the action type and the first 200 characters of the reasoning (the
    whole reasoning when it is shorter). *)
Theorem wisdom_search_result :
  forall (String_of_number : number -> string) (client : MaasvClient)
         (params : MemoryWisdomParams) (query : string),
    mwp_action params = WisdomSearch ->
    mwp_query params = Some query ->
    query <> "" ->
    exists k,
      memory_wisdom_execute String_of_number client params
      = Fetch WisdomReply (baseUrl client ++ "/v1/wisdom/search")
          {| init_method := "POST";
             init_headers := headers client;
             init_body :=
               Some (JObj [("query", JStr query); ("limit", JNum 10)]) |}
          k
      /\ forall o reply,
           handle_response "POST" "/v1/wisdom/search" o = Ret reply ->
           ((wis_count reply == 0)%Q ->
            k o = Ret (text_content "No wisdom entries found."))
           /\ (~ (wis_count reply == 0)%Q ->
               exists lines,
                 k o = Ret (text_content
                              ("Found " ++ String_of_number (wis_count reply)
                               ++ " wisdom entries:" ++ LF
                               ++ String.concat LF lines))
                 /\ Forall2
                      (fun w line =>
                         exists kept,
                           prefix kept (wis_reasoning w) = true
                           /\ String.length kept
                              = Nat.min (String.length (wis_reasoning w)) 200
                           /\ line
                              = "- [" ++ wis_outcome w
                                ++ match wis_feedback_score w with
                                   | Some score =>
                                       " (" ++ String_of_number score ++ "/5)"
                                   | None => ""
                                   end
                                ++ "] " ++ wis_action_type w ++ ": " ++ kept)
                      (wis_results reply) lines).
Proof.
  intros S client params query Hact Hq Hne.
  unfold memory_wisdom_execute. rewrite Hact, Hq. simpl.
  apply String.eqb_neq in Hne. rewrite Hne. simpl.
  eexists. split; [reflexivity|].
  intros o reply E. cbv beta. rewrite E. simpl. split.
  - intros H. apply Qeq_bool_iff in H. rewrite H. reflexivity.
  - intros H. destruct (Qeq_bool (wis_count reply) 0) eqn:Hc.
    + apply Qeq_bool_iff in Hc. contradiction.
    + eexists. split; [reflexivity|].
      induction (wis_results reply) as [|w ws IH]; simpl; constructor; [|exact IH].
      exists (slice (wis_reasoning w) 0 200).
      change 200%Q with (inject_Z (Z.of_nat 200)).
      rewrite slice_0_whole. split; [apply substring_0_prefix|]. split.
      * rewrite substring_0_length. lia.
      * reflexivity.
Qed.

Lemma wisdom_search_result_witness :
  "deploy" <> ""
  /\ first_request
       (memory_wisdom_execute sample_number_printer sample_client
          (wisdom_search_for "deploy"))
     = Some ("http://127.0.0.1:18790/v1/wisdom/search",
             {| init_method := "POST";
                init_headers := [("Content-Type", "application/json")];
                init_body :=
                  Some (JObj [("query", JStr "deploy"); ("limit", JNum 10)]) |}).
Proof.
  assert (Hne : "deploy" <> "") by discriminate.
  split; [exact Hne|].
  destruct (wisdom_search_result sample_number_printer sample_client
              (wisdom_search_for "deploy") "deploy" eq_refl eq_refl Hne)
    as (k & E & _).
  rewrite E. reflexivity.
Defined.

Ltac one_request :=
  let o := fresh "o" in
  let reply := fresh "reply" in
  intros o; apply no_fetch_bind; [apply no_fetch_handle_response|];
  intros reply;
  try match goal with
      | |- context [Qeq_bool ?a ?b] => destruct (Qeq_bool a b)
      end;
  exact I.

(** X21. No tool and no hook makes a second request: whatever the
    parameters, the event and the outcome of its request, each [execute] and
    each hook performs at most one fetch. *)
Theorem at_most_one_round_trip :
  forall (String_of_number : number -> string) (toFixed : number -> nat -> string)
         (config : PluginConfig) (client : MaasvClient),
    (forall params,
        at_most_one_fetch
          (memory_search_execute String_of_number toFixed client params))
    /\ (forall params, at_most_one_fetch (memory_store_execute client params))
    /\ (forall params, at_most_one_fetch (memory_forget_execute client params))
    /\ (forall params,
           at_most_one_fetch (memory_graph_execute String_of_number client params))
    /\ (forall params,
           at_most_one_fetch (memory_wisdom_execute String_of_number client params))
    /\ (forall event, at_most_one_fetch (before_agent_start config client event))
    /\ (forall event, at_most_one_fetch (agent_end config client event)).
Proof.
  intros S F config client. repeat split.
  - intros params. apply at_most_one_fetch_request.
    intros reply. destruct (Qeq_bool (count reply) 0); exact I.
  - intros params. apply at_most_one_fetch_request. intros reply. exact I.
  - intros params. apply at_most_one_fetch_guarded; intros; exact I.
  - intros params. unfold memory_graph_execute.
    destruct (mgp_action params);
      repeat match goal with
             | |- context [truthy ?x] => destruct (truthy x); simpl
             end;
      try exact I; one_request.
  - intros params. unfold memory_wisdom_execute.
    destruct (mwp_action params);
      repeat match goal with
             | |- context [truthy ?x] => destruct (truthy x); simpl
             | |- context [is_undefined ?x] => destruct x; simpl
             end;
      try exact I; one_request.
  - intros event. unfold before_agent_start.
    destruct (autoRecall config); simpl; [|exact I].
    destruct (extractUserMessage_pure event) as [[r ->]|[m ->]]; simpl; [|exact I].
    destruct (truthy r); simpl; [|exact I].
    intros o. apply no_fetch_try_catch; [|intros m; exact I].
    apply no_fetch_bind; [apply no_fetch_handle_response|].
    intros reply. cbv zeta.
    destruct (negb (context reply =? "") && (0 <? String.length (context reply))%nat);
      exact I.
  - intros event. unfold agent_end.
    destruct (autoCapture config); simpl; [|exact I].
    destruct (extractConversation_pure event) as [[r ->]|[m ->]]; simpl; [|exact I].
    destruct (negb (truthy r) || (String.length (nullish r "") <? 50)%nat);
      simpl; [exact I|].
    intros o. apply no_fetch_try_catch; [|intros m; exact I].
    apply no_fetch_bind; [apply no_fetch_handle_response|].
    intros reply. exact I.
Qed.

(* ================================================================== *)
(** ** The health probes *)

(** X22. The gateway methods maasv.status and maasv.stats never throw: each
    sends one GET request and responds [true] with the reply when the
    request returns, and [false] with the error message when it throws. *)
Theorem gateway_methods_respond :
  forall client : MaasvClient,
    no_throw (gateway_status client)
    /\ no_throw (gateway_stats client)
    /\ (exists k,
           gateway_status client
           = Fetch HealthResponse (baseUrl client ++ "/v1/health")
               {| init_method := "GET";
                  init_headers := headers client;
                  init_body := None |}
               k
           /\ forall o,
                (forall reply,
                    handle_response "GET" "/v1/health" o = Ret reply ->
                    k o = Ret (true, inl reply))
                /\ (forall m,
                       handle_response "GET" "/v1/health" o = Throw m ->
                       k o = Ret (false, inr m)))
    /\ (exists k,
           gateway_stats client
           = Fetch StatsResponse (baseUrl client ++ "/v1/stats")
               {| init_method := "GET";
                  init_headers := headers client;
                  init_body := None |}
               k
           /\ forall o,
                (forall reply,
                    handle_response "GET" "/v1/stats" o = Ret reply ->
                    k o = Ret (true, inl reply))
                /\ (forall m,
                       handle_response "GET" "/v1/stats" o = Throw m ->
                       k o = Ret (false, inr m))).
Proof.
  intros client. split; [|split; [|split]].
  - apply no_throw_try_catch. intros m. exact I.
  - apply no_throw_try_catch. intros m. exact I.
  - eexists. split; [reflexivity|].
    intros o. split; intros x E; cbv beta; rewrite E; reflexivity.
  - eexists. split; [reflexivity|].
    intros o. split; intros x E; cbv beta; rewrite E; reflexivity.
Qed.

(** X23. Starting the service never throws: it sends one health request,
    logs "maasv connected: status" at info level when the request returns,
    and otherwise logs at error level a line that names the configured
    server URL (as configured, trailing slashes included) and the error. *)
Theorem service_start_only_logs :
  forall (config : PluginConfig) (client : MaasvClient),
    no_throw (service_start config client)
    /\ exists k,
         service_start config client
         = Fetch HealthResponse (baseUrl client ++ "/v1/health")
             {| init_method := "GET";
                init_headers := headers client;
                init_body := None |}
             k
         /\ forall o,
              (forall reply,
                  handle_response "GET" "/v1/health" o = Ret reply ->
                  k o = Log LogInfo
                          ("maasv connected: "
                           ++ match health_status reply with
                              | healthy => "healthy"
                              | unhealthy => "unhealthy"
                              end)
                          (Ret tt))
              /\ (forall m,
                     handle_response "GET" "/v1/health" o = Throw m ->
                     k o = Log LogError
                             ("Failed to connect to maasv-server at "
                              ++ serverUrl config ++ ": " ++ m)
                             (Ret tt)).
Proof.
  intros config client. split.
  - apply no_throw_try_catch. intros m. exact I.
  - eexists. split; [reflexivity|].
    intros o. split; intros x E; cbv beta; rewrite E; reflexivity.
Qed.
